(** * ssp_director: a shallow embedding of the Director API client

  The development follows [src/ssp_director/__init__.py].  The client is
  modelled under Python 2 semantics, the interpreter the test-suite is
  written for ([basestring]) and the only one under which [_get] can run
  to completion: byte strings are [string]s, [str] has no [__iter__]
  attribute, and dictionaries have no specified iteration order. *)

From Stdlib Require Import ZArith String Ascii List Lia Bool.
From stdpp Require Import base strings gmap list pretty.

Local Open Scope Z_scope.
Local Set Warnings "-register-all".
Local Arguments String.append !_ _ / : simpl nomatch.

(* ------------------------------------------------------------------ *)
(** ** Python string primitives *)
(* ------------------------------------------------------------------ *)

Module Py.

Definition eqb_ascii (a b : ascii) : bool := Ascii.eqb a b.

(** [c in chars] for a one-character string [c]. *)
Fixpoint mem_ascii (c : ascii) (chars : list ascii) : bool :=
  match chars with
  | [] => false
  | d :: rest => eqb_ascii c d || mem_ascii c rest
  end.

(** [string.whitespace]: space, tab, line feed, carriage return,
    vertical tab and form feed. *)
Definition whitespace : list ascii :=
  [" "; "009"; "010"; "013"; "011"; "012"]%char.

Definition isspace (c : ascii) : bool := mem_ascii c whitespace.

(** [s.lstrip(chars)] *)
Fixpoint lstrip (p : ascii -> bool) (s : string) : string :=
  match s with
  | "" => ""
  | String c rest => if p c then lstrip p rest else s
  end.

(** [s.rstrip(chars)] *)
Fixpoint rstrip (p : ascii -> bool) (s : string) : string :=
  match s with
  | "" => ""
  | String c rest =>
      match rstrip p rest with
      | "" => if p c then "" else String c ""
      | rest' => String c rest'
      end
  end.

(** [s.strip()] *)
Definition strip (s : string) : string := rstrip isspace (lstrip isspace s).

(** [s.split(sep)] for a one-character separator: one more field than
    there are separators. *)
Fixpoint split (sep : ascii) (s : string) : list string :=
  match s with
  | "" => [""]
  | String c rest =>
      if eqb_ascii c sep then "" :: split sep rest
      else match split sep rest with
           | field :: fields => String c field :: fields
           | [] => [String c ""]
           end
  end.

(** [s.startswith(p)] *)
Fixpoint startswith (p s : string) : bool :=
  match p, s with
  | "", _ => true
  | String a p', String b s' => eqb_ascii a b && startswith p' s'
  | String _ _, "" => false
  end.

(** [s.replace(old, new)] for a non-empty [old]: occurrences are found
    from the left and do not overlap.  [skip] counts the characters of
    an occurrence that are still to be passed over. *)
Fixpoint replace_from (old new : string) (skip : nat) (s : string) : string :=
  match s with
  | "" => ""
  | String c rest =>
      match skip with
      | S k => replace_from old new k rest
      | O =>
          if startswith old s
          then new +:+ replace_from old new (Nat.pred (String.length old)) rest
          else String c (replace_from old new O rest)
      end
  end.

Definition replace (old new s : string) : string := replace_from old new O s.

(** [s.upper()] on a byte string. *)
Definition upper_ascii (c : ascii) : ascii :=
  let n := nat_of_ascii c in
  if (Nat.leb 97 n && Nat.leb n 122)%bool then ascii_of_nat (n - 32) else c.

Fixpoint upper (s : string) : string :=
  match s with
  | "" => ""
  | String c rest => String (upper_ascii c) (upper rest)
  end.

(** [sep.join(parts)] *)
Fixpoint join (sep : string) (parts : list string) : string :=
  match parts with
  | [] => ""
  | [p] => p
  | p :: rest => p +:+ sep +:+ join sep rest
  end.

(** Truth value testing ([bool(x)], [if x:], [not x]). *)
Class Truthy (A : Type) := truthy : A -> bool.

#[global] Instance truthy_bool : Truthy bool := fun b => b.
#[global] Instance truthy_Z : Truthy Z := fun z => negb (Z.eqb z 0).
#[global] Instance truthy_string : Truthy string :=
  fun s => match s with "" => false | _ => true end.
#[global] Instance truthy_list {A} : Truthy (list A) :=
  fun l => match l with [] => false | _ => true end.
(** [None] is false; anything else has its own truth value. *)
#[global] Instance truthy_option {A} `{Truthy A} : Truthy (option A) :=
  fun o => match o with None => false | Some a => truthy a end.

(** [str(x)] *)
Class Str (A : Type) := str : A -> string.

#[global] Instance str_string : Str string := fun s => s.
#[global] Instance str_Z : Str Z := fun z => pretty z.
#[global] Instance str_nat : Str nat := fun n => pretty n.

(** [int(bool(x))] *)
Definition int_bool {A} `{Truthy A} (x : A) : Z := if truthy x then 1 else 0.

(** [enumerate(l, start)] *)
Fixpoint enumerate {A} (l : list A) (start : nat) : list (nat * A) :=
  match l with
  | [] => []
  | x :: rest => (start, x) :: enumerate rest (S start)
  end.

End Py.

(* ------------------------------------------------------------------ *)
(** ** The regular expression of the response sanitiser *)
(* ------------------------------------------------------------------ *)

Module Re.

(** A pattern [c(?![...])]: the character [c], provided the next
    character is none of the listed ones (a negative lookahead, which
    consumes nothing and succeeds at the end of the input). *)
Record pattern := Pattern { p_char : ascii; p_not_before : list ascii }.

(** Does the pattern match at the head of the remaining input? *)
Definition match_here (p : pattern) (s : string) : bool :=
  match s with
  | "" => false
  | String c rest =>
      Py.eqb_ascii c (p_char p) &&
      match rest with
      | "" => true
      | String d _ => negb (Py.mem_ascii d (p_not_before p))
      end
  end.

(** [regex.sub(repl, s)] for a literal replacement: the input is scanned
    from the left; a match (always one character wide) is replaced and
    the scan resumes behind it. *)
Fixpoint sub (p : pattern) (repl : string) (s : string) : string :=
  match s with
  | "" => ""
  | String c rest =>
      if match_here p s then repl +:+ sub p repl rest
      else String c (sub p repl rest)
  end.

End Re.

(* ------------------------------------------------------------------ *)
(** ** JSON values, exceptions and the world the client runs in *)
(* ------------------------------------------------------------------ *)

(** What [json.loads] returns.  No arithmetic is ever done on a decoded
    number, so a Python float is kept as the text it was read from. *)
Inductive json :=
| JNull
| JBool (b : bool)
| JInt (z : Z)
| JFloat (lexeme : string)
| JStr (s : string)
| JArr (items : list json)
| JObj (members : list (string * json)).

(** A value of the options dictionary: a string or an integer. *)
Inductive optval :=
| OInt (z : Z)
| OStr (s : string).

#[global] Instance str_optval : Py.Str optval :=
  fun v => match v with OInt z => Py.str z | OStr s => s end.

(** The exceptions the client can leave through.  [DirectorError] is
    raised with whatever the service put under ['error']. *)
Inductive exn :=
| ValueError (msg : string)
| DirectorConnectionError (msg : string)
| DirectorApiError (msg : string)
| DirectorError (arg : json)
| NotImplementedError
| KeyError (key : string)
| TypeError.

(** The five error kinds of the documentation: configuration, connection,
    malformed payload, service, not implemented. *)
Definition documented (e : exn) : bool :=
  match e with
  | ValueError _ | DirectorConnectionError _ | DirectorApiError _
  | DirectorError _ | NotImplementedError => true
  | KeyError _ | TypeError => false
  end.

(** The library functions the client calls and does not define. *)
Class Runtime := {
  (** [urllib.urlencode] *)
  urlencode : gmap string optval -> string;
  (** [json.loads]: the decoded value, or the text of the [ValueError] *)
  json_loads : string -> string + json
}.

(** A size format as [add_format] stores it:
    [(name, width, height, crop, quality, sharpening)]. *)
Definition size_format : Type := string * Z * Z * Z * Z * Z.

(** The preview format: [(width, height, crop, quality, sharpening)]. *)
Definition preview_format : Type := Z * Z * Z * Z * Z.

(** A non-empty tuple is true. *)
#[global] Instance truthy_preview : Py.Truthy preview_format := fun _ => true.

(** One [_formats] dictionary. *)
Record formats := Formats {
  sizes : list size_format;
  user_sizes : list size_format;
  preview : option preview_format
}.

(** [{'sizes': [], 'user_sizes': [], 'preview': None}] *)
Definition no_formats : formats := Formats [] [] None.

(** What [urlopen] does with a url: it raises [IOError], or it returns a
    response with a status code and a body. *)
Inductive reply :=
| IOError
| Response (code : Z) (body : string).

(** The state a call runs in.  [class_formats] is the one dictionary that
    the class attribute [FormatMixin._formats] names; [own_formats] holds
    the [_formats] attribute of each instance that has been given one. *)
Record World := MkWorld {
  class_formats : formats;
  own_formats : gmap nat formats;
  next_oid : nat;
  service : string -> reply;
  requests : list string;
  entropy : nat -> Z;
  draws : nat
}.

Inductive outcome (A : Type) :=
| Return (a : A)
| Raise (e : exn).
Arguments Return {A} a.
Arguments Raise {A} e.

(** Computations: they read and change the world, and return or raise. *)
Definition M (A : Type) : Type := World -> outcome A * World.

Definition ret {A} (a : A) : M A := fun w => (Return a, w).
Definition raise {A} (e : exn) : M A := fun w => (Raise e, w).
Definition bind {A B} (m : M A) (k : A -> M B) : M B :=
  fun w => match m w with
           | (Return a, w') => k a w'
           | (Raise e, w') => (Raise e, w')
           end.

Notation "'let!' x ':=' m 'in' k" := (bind m (fun x => k))
  (at level 10, x name, m at level 100, k at level 200).

(** [urlopen(url)]: the request is recorded, the service answers. *)
Definition urlopen (url : string) : M reply :=
  fun w => (Return (service w url),
            MkWorld (class_formats w) (own_formats w) (next_oid w) (service w)
                    (url :: requests w) (entropy w) (draws w)).

(** [random.randint(lo, hi)]: the next draw, brought into [lo..hi]. *)
Definition randint (lo hi : Z) : M Z :=
  fun w => (Return (lo + entropy w (draws w) mod (hi - lo + 1)),
            MkWorld (class_formats w) (own_formats w) (next_oid w) (service w)
                    (requests w) (entropy w) (S (draws w))).

(** [d[key]] on a decoded value.  An object built from repeated keys
    keeps the last one. *)
Fixpoint last_member (key : string) (members : list (string * json)) : option json :=
  match members with
  | [] => None
  | (k, v) :: rest =>
      match last_member key rest with
      | Some v' => Some v'
      | None => if String.eqb k key then Some v else None
      end
  end.

Definition getitem {A} (j : json) (key : string) (k : json -> M A) : M A :=
  match j with
  | JObj members =>
      match last_member key members with
      | Some v => k v
      | None => raise (KeyError key)
      end
  | _ => raise TypeError
  end.

(** [x != s] for a decoded [x] and a string literal [s]. *)
Definition ne_str (x : json) (s : string) : bool :=
  match x with
  | JStr t => negb (String.eqb t s)
  | _ => true
  end.

(** [x in l] for strings. *)
Definition in_ (x : string) (l : list string) : bool := existsb (String.eqb x) l.

(** A dictionary display, and [d.update({...})]. *)
Definition update (d : gmap string optval) (items : list (string * optval))
  : gmap string optval :=
  foldl (fun acc kv => <[kv.1 := kv.2]> acc) d items.

Definition dict (items : list (string * optval)) : gmap string optval :=
  update ∅ items.

Local Arguments update : simpl never.

(** A non-empty dictionary is true. *)
#[global] Instance truthy_dict : Py.Truthy (gmap string optval) :=
  fun d => negb (bool_decide (d = ∅)).

(** An argument that takes one value or several: [None], a bare value,
    or a list.  Only the list has an [__iter__] attribute. *)
Inductive arg (A : Type) :=
| Absent
| One (a : A)
| Many (l : list A).
Arguments Absent {A}.
Arguments One {A} a.
Arguments Many {A} l.

#[global] Instance truthy_arg {A} `{Py.Truthy A} : Py.Truthy (arg A) :=
  fun x => match x with
           | Absent => false
           | One a => Py.truthy a
           | Many l => Py.truthy l
           end.

(** [if not x: x = []] followed by
    [if not hasattr(x, '__iter__'): x = [x]].  Only a list has the
    attribute; [None] is never true, so it does not reach the second
    test. *)
Definition or_empty {A} `{Py.Truthy A} (x : arg A) : arg A :=
  if negb (Py.truthy x) then Many [] else x.

Definition wrap {A} (x : arg A) : list A :=
  match x with
  | Many l => l
  | One a => [a]
  | Absent => []
  end.

(* ------------------------------------------------------------------ *)
(** ** The client *)
(* ------------------------------------------------------------------ *)

(** A [Director] object: its identity and the [_api_path] attribute,
    which is assigned once, by [__init__]. *)
Record Director := MkDirector { oid : nat; _api_path : string }.

(** *** FormatMixin *)

(** [self._formats]: the instance's own attribute if it has one, the
    class attribute otherwise. *)
Definition _formats (self : Director) (w : World) : formats :=
  match own_formats w !! oid self with
  | Some f => f
  | None => class_formats w
  end.

Definition read_formats (self : Director) : M formats :=
  fun w => (Return (_formats self w), w).

(** A change made in place to the dictionary [self._formats] names. *)
Definition mutate_formats (self : Director) (f : formats -> formats) : M unit :=
  fun w =>
    match own_formats w !! oid self with
    | Some own =>
        (Return tt,
         MkWorld (class_formats w) (<[oid self := f own]> (own_formats w))
                 (next_oid w) (service w) (requests w) (entropy w) (draws w))
    | None =>
        (Return tt,
         MkWorld (f (class_formats w)) (own_formats w)
                 (next_oid w) (service w) (requests w) (entropy w) (draws w))
    end.

(** [self._formats = d]: the attribute is bound on the instance. *)
Definition bind_formats (self : Director) (d : formats) : M unit :=
  fun w =>
    (Return tt,
     MkWorld (class_formats w) (<[oid self := d]> (own_formats w))
             (next_oid w) (service w) (requests w) (entropy w) (draws w)).

Definition add_format (self : Director) (name : string) (width height : Z)
    (crop : bool) (quality : Z) (sharpening : bool) : M unit :=
  mutate_formats self (fun d =>
    Formats (sizes d ++ [(Py.str name, width, height, Py.int_bool crop,
                          quality, Py.int_bool sharpening)])
            (user_sizes d) (preview d)).

Definition add_user_format (self : Director) (name : string) (width height : Z)
    (crop : bool) (quality : Z) (sharpening : bool) : M unit :=
  mutate_formats self (fun d =>
    Formats (sizes d)
            (user_sizes d ++ [(Py.str name, width, height, Py.int_bool crop,
                               quality, Py.int_bool sharpening)])
            (preview d)).

Definition set_preview_format (self : Director) (width height : Z)
    (crop : bool) (quality : Z) (sharpening : bool) : M unit :=
  mutate_formats self (fun d =>
    Formats (sizes d) (user_sizes d)
            (Some (width, height, Py.int_bool crop, quality,
                   Py.int_bool sharpening))).

Definition clear_formats (self : Director) : M unit :=
  bind_formats self no_formats.

(** *** CacheMixin *)

Definition set_cache (self : Director) (key : string) (expire : option Z) : M unit :=
  raise NotImplementedError.

Definition disable_cache (self : Director) : M unit :=
  raise NotImplementedError.

(** *** Director *)

(** [map(str, format)] on the two kinds of tuple. *)
Definition size_fields (f : size_format) : list string :=
  let '(name, width, height, crop, quality, sharpening) := f in
  [Py.str name; Py.str width; Py.str height; Py.str crop; Py.str quality;
   Py.str sharpening].

Definition preview_fields (f : preview_format) : list string :=
  let '(width, height, crop, quality, sharpening) := f in
  [Py.str width; Py.str height; Py.str crop; Py.str quality;
   Py.str sharpening].

(** The object is created with no attribute of its own but [_api_path]. *)
Definition new_director (api_path : string) : M Director :=
  fun w =>
    (Return (MkDirector (next_oid w) api_path),
     MkWorld (class_formats w) (own_formats w) (S (next_oid w)) (service w)
             (requests w) (entropy w) (draws w)).

Definition slash (c : ascii) : bool := Py.eqb_ascii c "/".

(** [Director(api_key, api_path)] *)
Definition __init__ (api_key api_path : string) : M Director :=
  match Py.split "-" (Py.strip api_key) with
  | [service; key] =>
      if negb (in_ service ["local"; "hosted"])
      then raise (ValueError "API key is invalid")
      else
        let api_path := Py.replace "http://" "" (Py.rstrip slash (Py.strip api_path)) in
        let api_path :=
          if String.eqb service "local" then api_path +:+ "/index.php?"
          else api_path in
        new_director ("http://" +:+ api_path +:+ "/api/")
  | _ => raise (ValueError "API key is invalid")
  end.

(** The compiled pattern: a backslash that is not followed by a slash,
    by the letter u or by a double quote (character 34). *)
Definition regex : Re.pattern := Re.Pattern "\" ["/"; "u"; "034"]%char.

(** The three steps of [_get] that add the formats to the options. *)
Definition add_sizes (fs : list size_format) (options : gmap string optval)
  : gmap string optval :=
  foldl (fun opts '(i, format) =>
           update opts [("size[" +:+ Py.str i +:+ "]",
                         OStr (Py.join "," (size_fields format)))])
        options (Py.enumerate fs 1).

Definition add_user_sizes (fs : list size_format) (options : gmap string optval)
  : gmap string optval :=
  foldl (fun opts '(i, format) =>
           update opts [("user_size[" +:+ Py.str i +:+ "]",
                         OStr (Py.join "," (size_fields format)))])
        options (Py.enumerate fs 1).

Definition add_preview (p : option preview_format) (options : gmap string optval)
  : gmap string optval :=
  if Py.truthy p
  then match p with
       | Some f => update options [("preview", OStr (Py.join "," (preview_fields f)))]
       | None => options
       end
  else options.

Definition with_formats (d : formats) (options : gmap string optval)
  : gmap string optval :=
  add_preview (preview d) (add_user_sizes (user_sizes d) (add_sizes (sizes d) options)).

(** The [else] branch of the [try] statement and the [return] behind
    it: the decoded response is taken apart. *)
Definition unwrap (response : json) : M json :=
  getitem response "stat" (fun stat =>
    if ne_str stat "ok"
    then getitem response "error" (fun error => raise (DirectorError error))
    else getitem response "data" ret).

(** The [try] statement of [_get], applied to what [request.read()]
    returned. *)
Definition decode `{Runtime} (response : string) : M json :=
  let response := Re.sub regex "" response in
  match json_loads response with
  | inl e => raise (DirectorApiError ("Received malformed JSON: " +:+ e))
  | inr response => unwrap response
  end.

(** [if not options: options = {}] *)
Definition options_or_empty (options : option (gmap string optval))
  : gmap string optval :=
  if negb (Py.truthy options)
  then ∅
  else match options with Some d => d | None => ∅ end.

(** [self._get(scope, options)] *)
Definition _get `{Runtime} (self : Director) (scope : string)
    (options : option (gmap string optval)) : M json :=
  let options := options_or_empty options in
  let! registry := read_formats self in
  let options := with_formats registry options in
  let endpoint := _api_path self +:+ scope in
  let queryparams := "?" +:+ urlencode options in
  let url := endpoint +:+ queryparams in
  let! request := urlopen url in
  match request with
  | IOError =>
      raise (DirectorConnectionError ("Couldn't connect to url: " +:+ url))
  | Response code response =>
      if negb (Z.eqb code 200)
      then raise (DirectorConnectionError
                    ("Endpoint could not be reached: " +:+ endpoint))
      else decode response
  end.

(** The accessors take their arguments at the types their docstrings
    name: ids and limits are integers (so [int(x)] is [x]), switches are
    booleans ([int(bool(x))] is 0 or 1), enumerated arguments are
    strings, a scope is a string or [None], a scope id an integer or
    [None]. *)

(** *** AppMixin *)

Definition get_version `{Runtime} (self : Director) : M json :=
  let! data := _get self "app_version" None in
  getitem data "version" ret.

Definition get_limits `{Runtime} (self : Director) : M json :=
  _get self "app_limits" None.

Definition get_totals `{Runtime} (self : Director) : M json :=
  _get self "app_totals" None.

(** *** GalleryMixin *)

Definition get_galleries `{Runtime} (self : Director) : M json :=
  let! data := _get self "get_gallery_list" None in
  getitem data "galleries" ret.

Definition get_gallery_options (gallery_id limit : Z) (order : string)
    (with_content : bool) : gmap string optval :=
  dict [("gallery_id", OInt gallery_id);
        ("limit", OInt limit);
        ("order", OStr (Py.str order));
        ("with_content", OInt (Py.int_bool with_content))].

Definition get_gallery `{Runtime} (self : Director) (gallery_id limit : Z)
    (order : string) (with_content : bool) : M json :=
  if negb (in_ order ["display"; "created_on"; "modified_on"])
  then raise (ValueError
                "order can only be 'display', 'created_on' or 'modified_on'")
  else _get self "get_gallery"
            (Some (get_gallery_options gallery_id limit order with_content)).

(** *** AlbumMixin *)

(** [','.join(str(tag) for tag in tags)] *)
Definition join_tags {A} `{Py.Str A} (tags : list A) : string :=
  Py.join "," (map Py.str tags).

Definition get_albums_options {A} `{Py.Truthy A} `{Py.Str A}
    (only_published only_active list_only only_smart exclude_smart : bool)
    (tags : arg A) (tags_exclusive : bool) : gmap string optval :=
  let tags := wrap (or_empty tags) in
  let options :=
    dict [("only_published", OInt (Py.int_bool only_published));
          ("only_active", OInt (Py.int_bool only_active));
          ("list_only", OInt (Py.int_bool list_only));
          ("only_smart", OInt (Py.int_bool only_smart));
          ("exclude_smart", OInt (Py.int_bool exclude_smart))] in
  if Py.truthy tags
  then update options [("tags", OStr (join_tags tags));
                       ("tags_exclusive", OInt (Py.int_bool tags_exclusive))]
  else options.

Definition get_albums `{Runtime} {A} `{Py.Truthy A} `{Py.Str A} (self : Director)
    (only_published only_active list_only only_smart exclude_smart : bool)
    (tags : arg A) (tags_exclusive : bool) : M json :=
  let! data :=
    _get self "get_album_list"
         (Some (get_albums_options only_published only_active list_only
                  only_smart exclude_smart tags tags_exclusive)) in
  getitem data "albums" ret.

Definition get_album `{Runtime} (self : Director) (album_id : Z)
    (only_active : bool) : M json :=
  _get self "get_album"
       (Some (dict [("album_id", OInt album_id);
                    ("only_active", OInt (Py.int_bool only_active))])).

Definition get_galleries_by_album_options (album_id : Z) (exclude : arg Z)
  : gmap string optval :=
  let exclude := wrap (or_empty exclude) in
  let options := dict [("album_id", OInt album_id)] in
  if Py.truthy exclude
  then update options [("exclude", OStr (join_tags exclude))]
  else options.

Definition get_galleries_by_album `{Runtime} (self : Director) (album_id : Z)
    (exclude : arg Z) : M json :=
  let! data :=
    _get self "get_associated_galleries"
         (Some (get_galleries_by_album_options album_id exclude)) in
  getitem data "galleries" ret.

(** *** ContentMixin *)

(** [scope and scope not in ['gallery', 'album']] *)
Definition bad_scope (scope : option string) : bool :=
  Py.truthy scope &&
  negb (match scope with
        | Some s => in_ s ["gallery"; "album"]
        | None => false
        end).

(** The options of [get_contents], once the arguments are accepted;
    [buster] is the number drawn when [sort_on] is ['random']. *)
Definition get_contents_options {A} `{Py.Truthy A} `{Py.Str A}
    (limit : Z) (only_images only_active : bool) (sort_on sort_direction : string)
    (scope : option string) (scope_id : option Z) (tags : arg A)
    (tags_exclusive : bool) (buster : option Z) : gmap string optval :=
  let tags := wrap (or_empty tags) in
  let options :=
    dict [("limit", OInt limit);
          ("only_images", OInt (Py.int_bool only_images));
          ("only_active", OInt (Py.int_bool only_active));
          ("sort_on", OStr (Py.str sort_on));
          ("sort_direction", OStr (Py.upper (Py.str sort_direction)))] in
  let options :=
    match buster with
    | Some b => update options [("buster", OInt b)]
    | None => options
    end in
  let options :=
    if Py.truthy scope && Py.truthy scope_id
    then match scope, scope_id with
         | Some s, Some i => update options [("scope", OStr (Py.str s));
                                             ("scope_id", OInt i)]
         | _, _ => options
         end
    else options in
  if Py.truthy tags
  then update options [("tags", OStr (join_tags tags));
                       ("tags_exclusive", OInt (Py.int_bool tags_exclusive))]
  else options.

Definition get_contents `{Runtime} {A} `{Py.Truthy A} `{Py.Str A} (self : Director)
    (limit : Z) (only_images only_active : bool) (sort_on sort_direction : string)
    (scope : option string) (scope_id : option Z) (tags : arg A)
    (tags_exclusive : bool) : M json :=
  if negb (in_ sort_on ["created_on"; "captured_on"; "modified_on"; "filename";
                        "random"])
  then raise (ValueError
    "sort_on can only be 'created_on', 'captured_on', 'modified_on', 'filename' or 'random'")
  else if negb (in_ sort_direction ["desc"; "asc"])
  then raise (ValueError "sort_direction can only be 'desc' or 'asc'")
  else if bad_scope scope
  then raise (ValueError "scope can only be 'gallery' or 'album'")
  else
    let! buster :=
      (if String.eqb sort_on "random"
       then let! b := randint 1 1000000 in ret (Some b)
       else ret None) in
    let! data :=
      _get self "get_content_list"
           (Some (get_contents_options limit only_images only_active sort_on
                    sort_direction scope scope_id tags tags_exclusive buster)) in
    getitem data "contents" ret.

Definition get_images `{Runtime} {A} `{Py.Truthy A} `{Py.Str A} :=
  get_contents (A := A).

Definition get_content `{Runtime} (self : Director) (content_id : Z) : M json :=
  _get self "get_content" (Some (dict [("content_id", OInt content_id)])).

Definition get_image `{Runtime} := get_content.

(** *** UserMixin *)

Definition get_users_options (sort : string) (scope : option string)
    (scope_id : option Z) (scope_all : bool) : gmap string optval :=
  let options := dict [("sort", OStr (Py.str sort))] in
  if Py.truthy scope && Py.truthy scope_id
  then match scope, scope_id with
       | Some s, Some i =>
           update options [("user_scope_model", OStr (Py.str s));
                           ("user_scope_id", OInt i);
                           ("user_scope_all", OInt (Py.int_bool scope_all))]
       | _, _ => options
       end
  else options.

Definition get_users `{Runtime} (self : Director) (sort : string)
    (scope : option string) (scope_id : option Z) (scope_all : bool) : M json :=
  if negb (in_ sort ["name"; "activity"])
  then raise (ValueError "sort can only be 'name' or 'activity'")
  else if bad_scope scope
  then raise (ValueError "scope can only be 'gallery' or 'album'")
  else
    let! data :=
      _get self "get_users" (Some (get_users_options sort scope scope_id scope_all)) in
    getitem data "users" ret.

(* ------------------------------------------------------------------ *)
(** ** A reference runtime *)
(* ------------------------------------------------------------------ *)

(** The statements below hold for every [Runtime].  To run the client on
    concrete requests and responses, this section supplies one: a query
    string encoder that lists the items in the order of [map_to_list],
    and a decoder for JSON texts whose error texts leave out the
    position. *)

Module Ref.

(** [urllib.quote_plus]: letters, digits and [_.-] are kept, a space
    becomes a plus sign, any other byte is written [%XX]. *)
Definition is_alnum (c : ascii) : bool :=
  let n := nat_of_ascii c in
  ((Nat.leb 48 n && Nat.leb n 57) || (Nat.leb 65 n && Nat.leb n 90)
   || (Nat.leb 97 n && Nat.leb n 122))%bool.

Definition always_safe (c : ascii) : bool :=
  is_alnum c || Py.mem_ascii c ["_"; "."; "-"]%char.

Definition hex_digit (n : nat) : ascii :=
  if Nat.ltb n 10 then ascii_of_nat (48 + n) else ascii_of_nat (55 + n).

Fixpoint quote_plus (s : string) : string :=
  match s with
  | "" => ""
  | String c rest =>
      if always_safe c then String c (quote_plus rest)
      else if Py.eqb_ascii c " " then String "+" (quote_plus rest)
      else
        let n := nat_of_ascii c in
        String "%" (String (hex_digit (Nat.div n 16))
                      (String (hex_digit (Nat.modulo n 16)) (quote_plus rest)))
  end.

Definition urlencode (query : gmap string optval) : string :=
  Py.join "&"
    (map (fun kv => quote_plus (Py.str kv.1) +:+ "=" +:+ quote_plus (Py.str kv.2))
         (map_to_list query)).

(** The JSON decoder. *)
Definition dquote : ascii := "034".

Definition is_ws (c : ascii) : bool :=
  Py.mem_ascii c [" "; "009"; "010"; "013"]%char.

Fixpoint skip_ws (s : string) : string :=
  match s with
  | "" => ""
  | String c rest => if is_ws c then skip_ws rest else s
  end.

Definition is_digit (c : ascii) : bool :=
  let n := nat_of_ascii c in (Nat.leb 48 n && Nat.leb n 57)%bool.

(** The longest run of digits at the head of the input. *)
Fixpoint digits (s : string) : string * string :=
  match s with
  | "" => ("", "")
  | String c rest =>
      if is_digit c
      then let '(ds, rest') := digits rest in (String c ds, rest')
      else ("", s)
  end.

Fixpoint digits_value (acc : Z) (ds : string) : Z :=
  match ds with
  | "" => acc
  | String c rest => digits_value (10 * acc + Z.of_nat (nat_of_ascii c - 48)) rest
  end.

Definition hex_value (c : ascii) : option N :=
  let n := nat_of_ascii c in
  if (Nat.leb 48 n && Nat.leb n 57)%bool then Some (N.of_nat (n - 48))
  else if (Nat.leb 65 n && Nat.leb n 70)%bool then Some (N.of_nat (n - 55))
  else if (Nat.leb 97 n && Nat.leb n 102)%bool then Some (N.of_nat (n - 87))
  else None.

(** The UTF-8 bytes of a code point below 65536. *)
Definition utf8 (cp : N) : string :=
  if (cp <? 128)%N then String (ascii_of_N cp) ""
  else if (cp <? 2048)%N
  then String (ascii_of_N (192 + cp / 64))
         (String (ascii_of_N (128 + cp mod 64)) "")
  else String (ascii_of_N (224 + cp / 4096))
         (String (ascii_of_N (128 + (cp / 64) mod 64))
            (String (ascii_of_N (128 + cp mod 64)) "")).

(** A string, read from behind its opening quote. *)
Fixpoint string_body (s : string) : option (string * string) :=
  match s with
  | "" => None
  | String c rest =>
      if Py.eqb_ascii c dquote then Some ("", rest)
      else if Py.eqb_ascii c "\" then
        match rest with
        | String e rest' =>
            let plain (x : ascii) :=
              match string_body rest' with
              | Some (body, tail) => Some (String x body, tail)
              | None => None
              end in
            if Py.eqb_ascii e dquote then plain dquote
            else if Py.eqb_ascii e "\" then plain "\"%char
            else if Py.eqb_ascii e "/" then plain "/"%char
            else if Py.eqb_ascii e "b" then plain "008"%char
            else if Py.eqb_ascii e "f" then plain "012"%char
            else if Py.eqb_ascii e "n" then plain "010"%char
            else if Py.eqb_ascii e "r" then plain "013"%char
            else if Py.eqb_ascii e "t" then plain "009"%char
            else if Py.eqb_ascii e "u" then
              match rest' with
              | String h1 (String h2 (String h3 (String h4 rest''))) =>
                  match hex_value h1, hex_value h2, hex_value h3, hex_value h4,
                        string_body rest'' with
                  | Some a, Some b, Some c', Some d, Some (body, tail) =>
                      Some (utf8 (4096 * a + 256 * b + 16 * c' + d)%N +:+ body, tail)
                  | _, _, _, _, _ => None
                  end
              | _ => None
              end
            else None
        | "" => None
        end
      else if Nat.ltb (nat_of_ascii c) 32 then None
      else match string_body rest with
           | Some (body, tail) => Some (String c body, tail)
           | None => None
           end
  end.

(** A number: an integer part, then an optional fraction and exponent,
    either of which makes it a float. *)
Definition int_part (s : string) : option (string * string) :=
  match digits s with
  | ("", _) => None
  | (String "0" "", rest) => Some ("0", rest)
  | (String "0" _, _) =>
      match s with
      | String _ rest => Some ("0", rest)
      | "" => None
      end
  | (ds, rest) => Some (ds, rest)
  end.

Definition frac_part (s : string) : string * string :=
  match s with
  | String "." rest =>
      match digits rest with
      | ("", _) => ("", s)
      | (ds, rest') => (String "." ds, rest')
      end
  | _ => ("", s)
  end.

Definition exp_part (s : string) : string * string :=
  match s with
  | String e rest =>
      if Py.mem_ascii e ["e"; "E"]%char then
        let '(sign, rest1) :=
          match rest with
          | String sg r => if Py.mem_ascii sg ["+"; "-"]%char
                           then (String sg "", r) else ("", rest)
          | "" => ("", rest)
          end in
        match digits rest1 with
        | ("", _) => ("", s)
        | (ds, rest2) => (String e (sign +:+ ds), rest2)
        end
      else ("", s)
  | "" => ("", s)
  end.

Definition number (s : string) : option (json * string) :=
  let '(neg, s1) :=
    match s with
    | String "-" rest => (true, rest)
    | _ => (false, s)
    end in
  match int_part s1 with
  | None => None
  | Some (ds, rest) =>
      let '(frac, rest1) := frac_part rest in
      let '(ex, rest2) := exp_part rest1 in
      match frac, ex with
      | "", "" =>
          Some (JInt (if neg then - digits_value 0 ds else digits_value 0 ds), rest2)
      | _, _ =>
          Some (JFloat ((if neg then "-" else "") +:+ ds +:+ frac +:+ ex), rest2)
      end
  end.

(** [after p s]: what is left of [s] behind the prefix [p]. *)
Fixpoint after (p s : string) : option string :=
  match p, s with
  | "", _ => Some s
  | String a p', String b s' => if Py.eqb_ascii a b then after p' s' else None
  | String _ _, "" => None
  end.

Definition literal (s : string) : option (json * string) :=
  match after "null" s, after "true" s, after "false" s,
        after "NaN" s, after "Infinity" s, after "-Infinity" s with
  | Some r, _, _, _, _, _ => Some (JNull, r)
  | _, Some r, _, _, _, _ => Some (JBool true, r)
  | _, _, Some r, _, _, _ => Some (JBool false, r)
  | _, _, _, Some r, _, _ => Some (JFloat "NaN", r)
  | _, _, _, _, Some r, _ => Some (JFloat "Infinity", r)
  | _, _, _, _, _, Some r => Some (JFloat "-Infinity", r)
  | _, _, _, _, _, _ => None
  end.

(** A value at the head of the input; [elements] and [members] read the
    rest of an array and of an object whose first item is still to come.
    Each call uses up one unit of [fuel]. *)
Fixpoint value (fuel : nat) (s : string) : option (json * string) :=
  match fuel with
  | O => None
  | S fuel =>
      match s with
      | "" => None
      | String c rest =>
          if Py.eqb_ascii c dquote then
            match string_body rest with
            | Some (body, tail) => Some (JStr body, tail)
            | None => None
            end
          else if Py.eqb_ascii c "{" then
            match skip_ws rest with
            | String "}" tail => Some (JObj [], tail)
            | rest' =>
                match members fuel rest' with
                | Some (ms, tail) => Some (JObj ms, tail)
                | None => None
                end
            end
          else if Py.eqb_ascii c "[" then
            match skip_ws rest with
            | String "]" tail => Some (JArr [], tail)
            | rest' =>
                match elements fuel rest' with
                | Some (items, tail) => Some (JArr items, tail)
                | None => None
                end
            end
          else
            match literal s with
            | Some r => Some r
            | None => number s
            end
      end
  end
with elements (fuel : nat) (s : string) : option (list json * string) :=
  match fuel with
  | O => None
  | S fuel =>
      match value fuel s with
      | Some (v, rest) =>
          match skip_ws rest with
          | String "," rest' =>
              match elements fuel (skip_ws rest') with
              | Some (vs, tail) => Some (v :: vs, tail)
              | None => None
              end
          | String "]" tail => Some ([v], tail)
          | _ => None
          end
      | None => None
      end
  end
with members (fuel : nat) (s : string) : option (list (string * json) * string) :=
  match fuel with
  | O => None
  | S fuel =>
      match s with
      | String q rest =>
          if Py.eqb_ascii q dquote then
            match string_body rest with
            | Some (key, rest1) =>
                match skip_ws rest1 with
                | String ":" rest2 =>
                    match value fuel (skip_ws rest2) with
                    | Some (v, rest3) =>
                        match skip_ws rest3 with
                        | String "," rest4 =>
                            match members fuel (skip_ws rest4) with
                            | Some (ms, tail) => Some ((key, v) :: ms, tail)
                            | None => None
                            end
                        | String "}" tail => Some ([(key, v)], tail)
                        | _ => None
                        end
                    | None => None
                    end
                | _ => None
                end
            | None => None
            end
          else None
      | "" => None
      end
  end.

Definition json_loads (s : string) : string + json :=
  match value (S (String.length s)) (skip_ws s) with
  | Some (v, rest) =>
      match skip_ws rest with
      | "" => inr v
      | _ => inl "Extra data"
      end
  | None => inl "No JSON object could be decoded"
  end.

(** Apostrophes stand for double quotes in the JSON texts written
    below. *)
Fixpoint q (s : string) : string :=
  match s with
  | "" => ""
  | String c rest => String (if Py.eqb_ascii c "'" then dquote else c) (q rest)
  end.

End Ref.

Definition reference : Runtime :=
  {| urlencode := Ref.urlencode; json_loads := Ref.json_loads |}.

(* ------------------------------------------------------------------ *)
(** ** The vocabulary of the specification *)
(* ------------------------------------------------------------------ *)

Definition chars (s : string) : list ascii := list_ascii_of_string s.

(** Position [i] of a text holds a stray backslash: a backslash that is
    not immediately followed by a slash, the letter u or a double quote. *)
Definition stray (l : list ascii) (i : nat) : bool :=
  match l !! i with
  | Some c =>
      Py.eqb_ascii c "\" &&
      match l !! S i with
      | Some d => negb (Py.mem_ascii d ["/"; "u"; "034"]%char)
      | None => true
      end
  | None => false
  end.

(** The text with its stray backslashes taken out and nothing else
    changed. *)
Definition without_stray (s : string) : string :=
  string_of_list_ascii
    (map snd (List.filter (fun p => negb (stray (chars s) (fst p)))
                          (Py.enumerate (chars s) 0))).

(** The world after one more request. *)
Definition logged (url : string) (w : World) : World :=
  MkWorld (class_formats w) (own_formats w) (next_oid w) (service w)
          (url :: requests w) (entropy w) (draws w).

(** The url that a call of [_get] asks for. *)
Definition request_url `{Runtime} (self : Director) (scope : string)
    (options : option (gmap string optval)) (w : World) : string :=
  _api_path self +:+ scope +:+ "?" +:+
  urlencode (with_formats (_formats self w) (options_or_empty options)).

(** A decoded response that [unwrap] can take apart: an object with a
    ['stat'] member, and with the member that ['stat'] calls for. *)
Definition well_formed (response : json) : bool :=
  match response with
  | JObj members =>
      match last_member "stat" members with
      | Some stat =>
          if ne_str stat "ok"
          then match last_member "error" members with Some _ => true | None => false end
          else match last_member "data" members with Some _ => true | None => false end
      | None => false
      end
  | _ => false
  end.

(** [c in s] for a character [c]. *)
Fixpoint has_char (c : ascii) (s : string) : bool :=
  match s with
  | "" => false
  | String d rest => Py.eqb_ascii d c || has_char c rest
  end.

(** The text in front of the first [c]. *)
Fixpoint before (c : ascii) (s : string) : string :=
  match s with
  | "" => ""
  | String d rest => if Py.eqb_ascii d c then "" else String d (before c rest)
  end.

(** A key that the constructor accepts: once the blanks around it are
    gone it reads [service-token], where the service is one of the two
    known ones and the token holds no further dash. *)
Definition valid_key (api_key : string) : Prop :=
  exists service token,
    Py.strip api_key = service +:+ String "-" token /\
    (service = "local" \/ service = "hosted") /\
    has_char "-" token = false.

Definition service_of (api_key : string) : string :=
  before "-" (Py.strip api_key).

(** The host part of the base path: the given path without the blanks
    around it, then without its trailing slashes, then without any
    [http://] in it. *)
Definition host_of (api_path : string) : string :=
  Py.replace "http://" "" (Py.rstrip slash (Py.strip api_path)).

(** The values the documentation allows. *)
Definition order_values : list string := ["display"; "created_on"; "modified_on"].
Definition sort_on_values : list string :=
  ["created_on"; "captured_on"; "modified_on"; "filename"; "random"].
Definition sort_direction_values : list string := ["desc"; "asc"].
Definition scope_values : list string := ["gallery"; "album"].
Definition sort_values : list string := ["name"; "activity"].

(** A scope is acceptable when it is absent, empty or one of the two
    values. *)
Definition scope_ok (scope : option string) : Prop :=
  scope = None \/ scope = Some "" \/ exists s, scope = Some s /\ s ∈ scope_values.

(** Both halves of a scope filter are supplied: the scope is present and
    not empty, the id is present and not zero. *)
Definition both_supplied (scope : option string) (scope_id : option Z) : Prop :=
  (exists s, scope = Some s /\ s <> "") /\ (exists i, scope_id = Some i /\ i <> 0).

(** A reply that [_get] turns into a connection error: [urlopen]
    raised, or the status is not 200. *)
Definition failed (r : reply) : bool :=
  match r with
  | IOError => true
  | Response code _ => negb (code =? 200)
  end.

(** [data[key]] as an outcome. *)
Definition subscript (data : json) (key : string) : outcome json :=
  match data with
  | JObj members =>
      match last_member key members with
      | Some v => Return v
      | None => Raise (KeyError key)
      end
  | _ => Raise TypeError
  end.

(** The values an argument stands for: none when it is absent, a bare
    value that is false or an empty list. *)
Definition values_of {A} `{Py.Truthy A} (x : arg A) : list A :=
  match x with
  | Absent => []
  | One a => if Py.truthy a then [a] else []
  | Many l => l
  end.

(** The instance has a [_formats] attribute of its own. *)
Definition has_own (self : Director) (w : World) : Prop :=
  is_Some (own_formats w !! oid self).

(** [p in s] for a text [p]. *)
Fixpoint occurs (p s : string) : bool :=
  Py.startswith p s ||
  match s with
  | "" => false
  | String _ rest => occurs p rest
  end.

(** The first and the last character of a text. *)
Definition first_char (s : string) : option ascii :=
  match s with
  | "" => None
  | String c _ => Some c
  end.

Fixpoint last_char (s : string) : option ascii :=
  match s with
  | "" => None
  | String c "" => Some c
  | String _ rest => last_char rest
  end.

(** A bare host: it is not empty, no blank stands at either end, no slash
    at its end, and [http://] is nowhere in it. *)
Definition bare_host (h : string) : Prop :=
  (exists c, first_char h = Some c /\ Py.isspace c = false) /\
  (exists c, last_char h = Some c /\ Py.isspace c = false /\ slash c = false) /\
  occurs "http://" h = false.

(** A call left the registries alone and made at most one request. *)
Definition quiet (w w' : World) : Prop :=
  class_formats w' = class_formats w /\
  own_formats w' = own_formats w /\
  (requests w' = requests w \/ exists url, requests w' = url :: requests w).

(** The keys that the registry writes: [size[...]], [user_size[...]] and
    [preview]. *)
Definition reserved (k : string) : bool :=
  Py.startswith "size[" k || Py.startswith "user_size[" k || String.eqb k "preview".

(** The outcome of every accessor, called with arguments it accepts,
    has the property [P]. *)
Definition every_call `{Runtime} {A} `{Py.Truthy A} `{Py.Str A}
    (self : Director) (w : World) (P : outcome json -> Prop) : Prop :=
  P (fst (get_version self w)) /\
  P (fst (get_limits self w)) /\
  P (fst (get_totals self w)) /\
  P (fst (get_galleries self w)) /\
  (forall gallery_id limit order with_content,
     order ∈ order_values ->
     P (fst (get_gallery self gallery_id limit order with_content w))) /\
  (forall only_published only_active list_only only_smart exclude_smart
          (tags : arg A) tags_exclusive,
     P (fst (get_albums self only_published only_active list_only only_smart
               exclude_smart tags tags_exclusive w))) /\
  (forall album_id only_active, P (fst (get_album self album_id only_active w))) /\
  (forall album_id exclude,
     P (fst (get_galleries_by_album self album_id exclude w))) /\
  (forall limit only_images only_active sort_on sort_direction scope scope_id
          (tags : arg A) tags_exclusive,
     sort_on ∈ sort_on_values ->
     sort_direction ∈ sort_direction_values ->
     scope_ok scope ->
     P (fst (get_contents self limit only_images only_active sort_on
               sort_direction scope scope_id tags tags_exclusive w))) /\
  (forall content_id, P (fst (get_content self content_id w))) /\
  (forall sort scope scope_id scope_all,
     sort ∈ sort_values ->
     scope_ok scope ->
     P (fst (get_users self sort scope scope_id scope_all w))).

(** Every key that an accessor writes into its options. *)
Definition accessor_keys : list string :=
  ["gallery_id"; "limit"; "order"; "with_content"; "only_published";
   "only_active"; "list_only"; "only_smart"; "exclude_smart"; "tags";
   "tags_exclusive"; "album_id"; "exclude"; "only_images"; "sort_on";
   "sort_direction"; "buster"; "scope"; "scope_id"; "content_id"; "sort";
   "user_scope_model"; "user_scope_id"; "user_scope_all"].

(** [DirectorTest.test_format_methods] of [tests.py], run on the client
    that [setUp] built: the values that its six assertions inspect, the
    first three before and the last three after the second
    [clear_formats]. *)
Definition test_format_methods (director : Director)
  : M ((nat * nat * option preview_format) * (nat * nat * option preview_format)) :=
  let! _ := clear_formats director in
  let! _ := add_format director "thumb" 150 120 true 75 true in
  let! _ := add_user_format director "medium" 150 120 true 75 true in
  let! _ := set_preview_format director 132322 123223 true 75 true in
  let! filled := read_formats director in
  let! _ := clear_formats director in
  let! cleared := read_formats director in
  ret ((length (sizes filled), length (user_sizes filled), preview filled),
       (length (sizes cleared), length (user_sizes cleared), preview cleared)).

(** ** Sample worlds *)

(** A world with nothing registered and nothing requested yet, in which
    the service answers every request with the same body. *)
Definition world_replying (body : string) : World :=
  MkWorld no_formats ∅ 0 (fun _ => Response 200 body) [] (fun _ => 41) 0.

(** A client of a hosted install, as [__init__] builds it. *)
Definition hosted_client : Director := MkDirector 0 "http://example.com/api/".

(** A world in which the service gives every request the same reply. *)
Definition world_with (r : reply) : World :=
  MkWorld no_formats ∅ 0 (fun _ => r) [] (fun _ => 41) 0.

Definition body_ok : string := Ref.q "{'stat':'ok','data':{'version':'4.2'}}".
Definition body_fail : string := Ref.q "{'stat':'fail','error':'Gallery not found'}".
Definition body_empty_object : string := "{}".

(* ------------------------------------------------------------------ *)
(** ** Strings *)
(* ------------------------------------------------------------------ *)

Lemma str_append_assoc (a b c : string) : (a +:+ b) +:+ c = a +:+ (b +:+ c).
Proof. induction a as [|x a IH]; simpl; [done | by rewrite IH]. Qed.

Lemma str_append_nil_r (a : string) : a +:+ "" = a.
Proof. induction a as [|x a IH]; simpl; [done | by rewrite IH]. Qed.

Lemma eqb_ascii_true (a b : ascii) : Py.eqb_ascii a b = true <-> a = b.
Proof. apply Ascii.eqb_eq. Qed.

Lemma eqb_ascii_false (a b : ascii) : Py.eqb_ascii a b = false <-> a <> b.
Proof. apply Ascii.eqb_neq. Qed.

(* ------------------------------------------------------------------ *)
(** ** The sanitising pass *)
(* ------------------------------------------------------------------ *)

Lemma stray_head (c : ascii) (l : list ascii) :
  stray (c :: l) 0 = Re.match_here regex (string_of_list_ascii (c :: l)).
Proof. unfold stray. simpl. by destruct l. Qed.

Lemma stray_tail (c : ascii) (l : list ascii) (i : nat) :
  stray (c :: l) (S i) = stray l i.
Proof. reflexivity. Qed.

Lemma stray_shift (pre l : list ascii) (i : nat) :
  stray (pre ++ l) (length pre + i) = stray l i.
Proof.
  induction pre as [|x pre IH]; [done|].
  simpl. by rewrite stray_tail.
Qed.

Lemma sub_chars (pre l : list ascii) :
  chars (Re.sub regex "" (string_of_list_ascii l)) =
  map snd (List.filter (fun p => negb (stray (pre ++ l) (fst p)))
                       (Py.enumerate l (length pre))).
Proof.
  revert pre. induction l as [|c l IH]; intros pre; [done|].
  change (string_of_list_ascii (c :: l)) with (String c (string_of_list_ascii l)).
  cbn [Re.sub Py.enumerate List.filter fst].
  replace (stray (pre ++ c :: l) (length pre)) with (stray (c :: l) 0)
    by (rewrite <- (stray_shift pre (c :: l) 0); f_equal; lia).
  rewrite stray_head.
  change (string_of_list_ascii (c :: l)) with (String c (string_of_list_ascii l)).
  specialize (IH (pre ++ [c])).
  rewrite <- List.app_assoc, List.length_app, Nat.add_1_r in IH. simpl in IH.
  destruct (Re.match_here regex (String c (string_of_list_ascii l))); simpl.
  - exact IH.
  - unfold chars in *. simpl. by rewrite IH.
Qed.

Lemma sub_without_stray (s : string) : Re.sub regex "" s = without_stray s.
Proof.
  unfold without_stray.
  rewrite <- (string_of_list_ascii_of_string (Re.sub regex "" s)).
  f_equal.
  rewrite <- (string_of_list_ascii_of_string s) at 1.
  apply (sub_chars [] (chars s)).
Qed.

(** A text free of stray backslashes, told from the text itself. *)
Lemma no_stray_cons (c : ascii) (s : string) :
  (forall i, stray (chars (String c s)) i = false) <->
  Re.match_here regex (String c s) = false /\ (forall i, stray (chars s) i = false).
Proof.
  split.
  - intros Hall. split.
    + specialize (Hall 0%nat). unfold chars in Hall. simpl in Hall.
      rewrite stray_head in Hall. simpl in Hall.
      by rewrite string_of_list_ascii_of_string in Hall.
    + intros i. exact (Hall (S i)).
  - intros [Hhead Htail] [|i].
    + unfold chars. simpl. rewrite stray_head. simpl.
      by rewrite string_of_list_ascii_of_string.
    + exact (Htail i).
Qed.

Lemma sub_fixed_point (s : string) :
  (forall i, stray (chars s) i = false) -> Re.sub regex "" s = s.
Proof.
  induction s as [|c s IH]; [done|].
  intros Hall. apply no_stray_cons in Hall as [Hhead Htail].
  cbn [Re.sub]. rewrite Hhead. by rewrite IH.
Qed.

Lemma sub_head_kept (c d : ascii) (s : string) :
  Re.match_here regex (String c (String d s)) = false ->
  Re.match_here regex (String c (Re.sub regex "" (String d s))) = false.
Proof.
  cbn [Re.sub]. unfold Re.match_here. simpl.
  destruct (Py.eqb_ascii c "\") eqn:Hc; simpl; [|done].
  intros Hd. apply negb_false_iff in Hd.
  assert (Py.eqb_ascii d "\" = false) as ->.
  { repeat (apply orb_true_iff in Hd as [Hd|Hd]); try done;
      apply eqb_ascii_true in Hd as ->; done. }
  simpl. by apply negb_false_iff.
Qed.

Lemma sub_no_stray (s : string) (i : nat) :
  stray (chars (Re.sub regex "" s)) i = false.
Proof.
  revert i. induction s as [|c s IH]; intros i.
  - by destruct i.
  - cbn [Re.sub].
    destruct (Re.match_here regex (String c s)) eqn:Hhead; simpl; [apply IH|].
    revert i. apply no_stray_cons. split; [|exact IH].
    destruct s as [|d s].
    + simpl in *. exact Hhead.
    + by apply sub_head_kept.
Qed.

Lemma sub_idempotent (s : string) :
  Re.sub regex "" (Re.sub regex "" s) = Re.sub regex "" s.
Proof. apply sub_fixed_point, sub_no_stray. Qed.

(* ------------------------------------------------------------------ *)
(** ** The request pipeline *)
(* ------------------------------------------------------------------ *)

Lemma unwrap_world (response : json) (w : World) : snd (unwrap response w) = w.
Proof.
  unfold unwrap, getitem, raise, ret.
  destruct response as [| | | | | |members]; try done.
  destruct (last_member "stat" members) as [stat|]; [|done].
  destruct (ne_str stat "ok").
  - by destruct (last_member "error" members).
  - by destruct (last_member "data" members).
Qed.

Lemma decode_world `{Runtime} (body : string) (w : World) :
  snd (decode body w) = w.
Proof.
  unfold decode. destruct (json_loads _); [done | apply unwrap_world].
Qed.

(** One call of [_get], step by step. *)
Lemma get_run `{Runtime} (self : Director) (scope : string)
    (options : option (gmap string optval)) (w : World) :
  _get self scope options w =
  let url := request_url self scope options w in
  match service w url with
  | IOError =>
      (Raise (DirectorConnectionError ("Couldn't connect to url: " +:+ url)),
       logged url w)
  | Response code body =>
      if code =? 200
      then decode body (logged url w)
      else (Raise (DirectorConnectionError
                     ("Endpoint could not be reached: " +:+ _api_path self +:+ scope)),
            logged url w)
  end.
Proof.
  unfold _get, bind, read_formats, urlopen, request_url, logged. simpl.
  rewrite !str_append_assoc.
  destruct (service w _) as [|code body]; [done|].
  by destruct (code =? 200).
Qed.

Lemma get_requests `{Runtime} (self : Director) (scope : string)
    (options : option (gmap string optval)) (w : World) :
  snd (_get self scope options w) = logged (request_url self scope options w) w.
Proof.
  rewrite get_run. simpl.
  destruct (service w _) as [|code body]; [done|].
  destruct (code =? 200); [apply decode_world | done].
Qed.

Lemma unwrap_well_formed (response : json) (w : World) :
  well_formed response = true ->
  (exists data, fst (unwrap response w) = Return data) \/
  (exists error, fst (unwrap response w) = Raise (DirectorError error)).
Proof.
  unfold well_formed, unwrap, getitem, raise, ret.
  destruct response as [| | | | | |members]; try done.
  destruct (last_member "stat" members) as [stat|]; [|done].
  destruct (ne_str stat "ok").
  - destruct (last_member "error" members) as [error|]; [|done]. right. by exists error.
  - destruct (last_member "data" members) as [data|]; [|done]. left. by exists data.
Qed.

Lemma unwrap_ill_formed (response : json) (w : World) :
  well_formed response = false ->
  exists e, fst (unwrap response w) = Raise e /\ documented e = false.
Proof.
  unfold well_formed, unwrap, getitem, raise, ret.
  destruct response as [| | | | | |members]; try (by exists TypeError).
  destruct (last_member "stat" members) as [stat|]; [|by exists (KeyError "stat")].
  destruct (ne_str stat "ok").
  - destruct (last_member "error" members); [done | by exists (KeyError "error")].
  - destruct (last_member "data" members); [done | by exists (KeyError "data")].
Qed.

Lemma ne_str_ok (stat : json) : ne_str stat "ok" = false <-> stat = JStr "ok".
Proof.
  unfold ne_str. destruct stat as [| | | |t| |]; try (split; done).
  rewrite negb_false_iff, String.eqb_eq. split; [by intros -> | by intros [= ->]].
Qed.

(** C3: the sanitising pass deletes exactly the backslashes that are not
    immediately followed by a slash, the letter u or a double quote, and
    changes nothing else; a body all of whose backslashes are followed by
    one of the three is a fixed point; no other backslash is left in what
    the JSON decoder is given. *)
Theorem sanitising_pass_deletes_exactly_the_stray_backslashes
    `{Runtime} (body : string) :
  Re.sub regex "" body = without_stray body /\
  ((forall i, stray (chars body) i = false) -> Re.sub regex "" body = body) /\
  (forall i, stray (chars (without_stray body)) i = false) /\
  decode body =
    match json_loads (without_stray body) with
    | inl e => raise (DirectorApiError ("Received malformed JSON: " +:+ e))
    | inr response => unwrap response
    end.
Proof.
  split; [apply sub_without_stray|].
  split; [apply sub_fixed_point|].
  split.
  - intros i. rewrite <- sub_without_stray. apply sub_no_stray.
  - unfold decode. by rewrite sub_without_stray.
Qed.

(** C4: when the sanitised body decodes to an envelope, a ['stat'] that
    is exactly "ok" makes the pipeline return the ['data'] payload, and
    any other ['stat'] makes it raise the service error with the
    ['error'] member as it stands; when the sanitised body does not
    decode, the pipeline raises the malformed-payload error with the
    decoder's own message. *)
Theorem envelope_is_unwrapped `{Runtime} (self : Director) (scope : string)
    (options : option (gmap string optval)) (w : World) (body : string) :
  service w (request_url self scope options w) = Response 200 body ->
  let result := fst (_get self scope options w) in
  (forall members stat,
     json_loads (without_stray body) = inr (JObj members) ->
     last_member "stat" members = Some stat ->
     (stat = JStr "ok" ->
      forall data, last_member "data" members = Some data -> result = Return data) /\
     (stat <> JStr "ok" ->
      forall error, last_member "error" members = Some error ->
                    result = Raise (DirectorError error))) /\
  (forall detail,
     json_loads (without_stray body) = inl detail ->
     result = Raise (DirectorApiError ("Received malformed JSON: " +:+ detail))).
Proof.
  intros Hreply result. subst result.
  rewrite get_run. simpl. rewrite Hreply. simpl.
  unfold decode. rewrite sub_without_stray.
  split.
  - intros members stat -> Hstat. unfold unwrap, getitem. rewrite Hstat.
    split.
    + intros -> data ->. done.
    + intros Hne error ->.
      destruct (ne_str stat "ok") eqn:Hok; [done|].
      by apply ne_str_ok in Hok.
  - by intros detail ->.
Qed.

(** C10, as the code has it: a connection failure, an undecodable body
    and a well-formed envelope end in the payload or in a documented
    error; a body that decodes to anything else (no object, or an object
    without the member that is read) ends in [KeyError] or [TypeError]. *)
Theorem pipeline_outcomes `{Runtime} (self : Director) (scope : string)
    (options : option (gmap string optval)) (w : World) :
  let result := fst (_get self scope options w) in
  match service w (request_url self scope options w) with
  | IOError => exists msg, result = Raise (DirectorConnectionError msg)
  | Response code body =>
      if code =? 200
      then match json_loads (without_stray body) with
           | inl detail =>
               result = Raise (DirectorApiError ("Received malformed JSON: " +:+ detail))
           | inr response =>
               if well_formed response
               then (exists data, result = Return data) \/
                    (exists error, result = Raise (DirectorError error))
               else exists e, result = Raise e /\ documented e = false
           end
      else exists msg, result = Raise (DirectorConnectionError msg)
  end.
Proof.
  intros result. subst result. rewrite get_run. simpl.
  destruct (service w _) as [|code body]; [by eexists|].
  destruct (code =? 200); [|by eexists].
  unfold decode. rewrite sub_without_stray.
  destruct (json_loads _) as [detail|response]; [done|].
  destruct (well_formed response) eqn:Hwf.
  - by apply unwrap_well_formed.
  - by apply unwrap_ill_formed.
Qed.

Lemma envelope_is_unwrapped_witness :
  fst (@_get reference hosted_client "app_version" None (world_replying body_ok))
    = Return (JObj [("version", JStr "4.2")]) /\
  fst (@_get reference hosted_client "get_gallery" None (world_replying body_fail))
    = Raise (DirectorError (JStr "Gallery not found")) /\
  fst (@_get reference hosted_client "app_version" None (world_replying "<html>"))
    = Raise (DirectorApiError
               "Received malformed JSON: No JSON object could be decoded").
Proof.
  split; [|split].
  - pose proof (envelope_is_unwrapped (H := reference) hosted_client "app_version"
                  None (world_replying body_ok) body_ok eq_refl) as [Hobj _].
    destruct (Hobj [("stat", JStr "ok"); ("data", JObj [("version", JStr "4.2")])]
                   (JStr "ok")) as [Hok _]; [by vm_compute | by vm_compute |].
    apply Hok; [done | by vm_compute].
  - pose proof (envelope_is_unwrapped (H := reference) hosted_client "get_gallery"
                  None (world_replying body_fail) body_fail eq_refl) as [Hobj _].
    destruct (Hobj [("stat", JStr "fail"); ("error", JStr "Gallery not found")]
                   (JStr "fail")) as [_ Hfail]; [by vm_compute | by vm_compute |].
    apply Hfail; [done | by vm_compute].
  - pose proof (envelope_is_unwrapped (H := reference) hosted_client "app_version"
                  None (world_replying "<html>") "<html>" eq_refl) as [_ Hbad].
    apply (Hbad "No JSON object could be decoded"). by vm_compute.
Defined.

(** C10, as stated, fails: the body [{}] decodes, and the pipeline leaves
    through [KeyError], which is none of the documented kinds. *)
Lemma empty_object_raises_key_error :
  Ref.json_loads (Re.sub regex "" body_empty_object) = inr (JObj []) /\
  fst (@_get reference hosted_client "app_version" None
         (world_replying body_empty_object)) = Raise (KeyError "stat") /\
  documented (KeyError "stat") = false.
Proof. by vm_compute. Qed.

(* ------------------------------------------------------------------ *)
(** ** The format registry in the options *)
(* ------------------------------------------------------------------ *)

Lemma length_append (a b : string) :
  String.length (a +:+ b) = (String.length a + String.length b)%nat.
Proof. induction a as [|x a IH]; simpl; [done | by rewrite IH]. Qed.

Lemma append_inv_tail (a b c : string) : a +:+ c = b +:+ c -> a = b.
Proof.
  revert b. induction a as [|x a IH]; intros [|y b] Heq; simpl in Heq.
  - done.
  - apply (f_equal String.length) in Heq. simpl in Heq.
    rewrite length_append in Heq. lia.
  - apply (f_equal String.length) in Heq. simpl in Heq.
    rewrite length_append in Heq. lia.
  - injection Heq as -> Heq. f_equal. by apply IH.
Qed.

Lemma str_nat_inj (i j : nat) : Py.str i = Py.str j -> i = j.
Proof. unfold Py.str, Py.str_nat. apply (inj pretty). Qed.

Lemma size_key_inj (i j : nat) :
  "size[" +:+ Py.str i +:+ "]" = "size[" +:+ Py.str j +:+ "]" -> i = j.
Proof.
  intros Heq. simpl in Heq. injection Heq as Heq.
  by apply str_nat_inj, (append_inv_tail _ _ "]").
Qed.

Lemma user_size_key_inj (i j : nat) :
  "user_size[" +:+ Py.str i +:+ "]" = "user_size[" +:+ Py.str j +:+ "]" -> i = j.
Proof.
  intros Heq. simpl in Heq. injection Heq as Heq.
  by apply str_nat_inj, (append_inv_tail _ _ "]").
Qed.

(** A loop that stores the [i]-th item of a list under the [i]-th key. *)
Lemma numbered_lookup_other {A} (key : nat -> string) (val : A -> optval)
    (fs : list A) (start : nat) (options : gmap string optval) (k : string) :
  (forall i, (i < length fs)%nat -> k <> key (start + i)%nat) ->
  foldl (fun opts '(i, f) => update opts [(key i, val f)]) options
        (Py.enumerate fs start) !! k = options !! k.
Proof.
  revert start options. induction fs as [|f fs IH]; intros start options Hk; [done|].
  simpl. rewrite IH.
  - unfold update. simpl. rewrite lookup_insert_ne; [done|].
    intros Heq. apply (Hk 0%nat); [simpl; lia|]. by rewrite Nat.add_0_r.
  - intros i Hi. replace (S start + i)%nat with (start + S i)%nat by lia.
    apply Hk. simpl. lia.
Qed.

Lemma numbered_lookup {A} (key : nat -> string) (val : A -> optval)
    (fs : list A) (start : nat) (options : gmap string optval) (i : nat) (f : A) :
  (forall a b, key a = key b -> a = b) ->
  fs !! i = Some f ->
  foldl (fun opts '(i, f) => update opts [(key i, val f)]) options
        (Py.enumerate fs start) !! key (start + i)%nat = Some (val f).
Proof.
  intros Hinj. revert start options i.
  induction fs as [|g fs IH]; intros start options i Hi; [done|].
  destruct i as [|i]; simpl in *.
  - injection Hi as ->. rewrite numbered_lookup_other.
    + unfold update. simpl. rewrite Nat.add_0_r. apply lookup_insert_eq.
    + intros j _ Heq. apply Hinj in Heq. lia.
  - replace (start + S i)%nat with (S start + i)%nat by lia. by apply IH.
Qed.

Lemma add_sizes_lookup (fs : list size_format) (options : gmap string optval)
    (i : nat) (f : size_format) :
  fs !! i = Some f ->
  add_sizes fs options !! ("size[" +:+ Py.str (S i) +:+ "]")
  = Some (OStr (Py.join "," (size_fields f))).
Proof.
  intros Hi. unfold add_sizes.
  apply (numbered_lookup (fun i => "size[" +:+ Py.str i +:+ "]")
           (fun f => OStr (Py.join "," (size_fields f))) fs 1 options i f);
    [apply size_key_inj | done].
Qed.

Lemma add_user_sizes_lookup (fs : list size_format) (options : gmap string optval)
    (i : nat) (f : size_format) :
  fs !! i = Some f ->
  add_user_sizes fs options !! ("user_size[" +:+ Py.str (S i) +:+ "]")
  = Some (OStr (Py.join "," (size_fields f))).
Proof.
  intros Hi. unfold add_user_sizes.
  apply (numbered_lookup (fun i => "user_size[" +:+ Py.str i +:+ "]")
           (fun f => OStr (Py.join "," (size_fields f))) fs 1 options i f);
    [apply user_size_key_inj | done].
Qed.

Lemma add_sizes_other (fs : list size_format) (options : gmap string optval)
    (k : string) :
  (forall i, (i < length fs)%nat -> k <> "size[" +:+ Py.str (S i) +:+ "]") ->
  add_sizes fs options !! k = options !! k.
Proof.
  intros Hk. unfold add_sizes.
  apply (numbered_lookup_other (fun i => "size[" +:+ Py.str i +:+ "]")
           (fun f => OStr (Py.join "," (size_fields f)))).
  intros i Hi. by apply Hk.
Qed.

Lemma add_user_sizes_other (fs : list size_format) (options : gmap string optval)
    (k : string) :
  (forall i, (i < length fs)%nat -> k <> "user_size[" +:+ Py.str (S i) +:+ "]") ->
  add_user_sizes fs options !! k = options !! k.
Proof.
  intros Hk. unfold add_user_sizes.
  apply (numbered_lookup_other (fun i => "user_size[" +:+ Py.str i +:+ "]")
           (fun f => OStr (Py.join "," (size_fields f)))).
  intros i Hi. by apply Hk.
Qed.

Lemma add_preview_lookup (p : option preview_format)
    (options : gmap string optval) :
  add_preview p options !! "preview" =
  match p with
  | Some f => Some (OStr (Py.join "," (preview_fields f)))
  | None => options !! "preview"
  end.
Proof.
  destruct p as [f|]; [|done].
  unfold add_preview, update. simpl. apply lookup_insert_eq.
Qed.

Lemma add_preview_other (p : option preview_format)
    (options : gmap string optval) (k : string) :
  k <> "preview" -> add_preview p options !! k = options !! k.
Proof.
  intros Hk. destruct p as [f|]; [|done].
  unfold add_preview, update. simpl. by rewrite lookup_insert_ne.
Qed.

(** A change through [self._formats] is seen by the instance itself. *)
Lemma mutate_formats_self (self : Director) (f : formats -> formats) (w : World) :
  _formats self (snd (mutate_formats self f w)) = f (_formats self w).
Proof.
  unfold mutate_formats, _formats.
  destruct (own_formats w !! oid self) as [own|] eqn:Hown; simpl.
  - by rewrite lookup_insert_eq.
  - by rewrite Hown.
Qed.

Lemma add_format_appends (self : Director) (name : string) (width height : Z)
    (crop : bool) (quality : Z) (sharpening : bool) (w : World) :
  let w' := snd (add_format self name width height crop quality sharpening w) in
  sizes (_formats self w')
  = sizes (_formats self w)
    ++ [(name, width, height, Py.int_bool crop, quality, Py.int_bool sharpening)] /\
  user_sizes (_formats self w') = user_sizes (_formats self w) /\
  preview (_formats self w') = preview (_formats self w).
Proof. unfold add_format. by rewrite mutate_formats_self. Qed.

Lemma add_user_format_appends (self : Director) (name : string) (width height : Z)
    (crop : bool) (quality : Z) (sharpening : bool) (w : World) :
  let w' := snd (add_user_format self name width height crop quality sharpening w) in
  user_sizes (_formats self w')
  = user_sizes (_formats self w)
    ++ [(name, width, height, Py.int_bool crop, quality, Py.int_bool sharpening)] /\
  sizes (_formats self w') = sizes (_formats self w) /\
  preview (_formats self w') = preview (_formats self w).
Proof. unfold add_user_format. by rewrite mutate_formats_self. Qed.


(* ------------------------------------------------------------------ *)
(** ** Construction *)
(* ------------------------------------------------------------------ *)

Lemma split_not_nil (sep : ascii) (s : string) : Py.split sep s <> [].
Proof.
  destruct s as [|c s]; simpl; [done|].
  destruct (Py.eqb_ascii c sep); [done|]. by destruct (Py.split sep s).
Qed.

Lemma split_single (sep : ascii) (s x : string) :
  Py.split sep s = [x] <-> x = s /\ has_char sep s = false.
Proof.
  revert x. induction s as [|c s IH]; intros x; simpl.
  - split; [by intros [= <-] | by intros [-> _]].
  - destruct (Py.eqb_ascii c sep) eqn:Hc; simpl.
    + split; [|by intros [_ ?]].
      intros [= _ Hnil]. by apply split_not_nil in Hnil.
    + destruct (Py.split sep s) as [|field fields] eqn:Hs.
      { by apply split_not_nil in Hs. }
      split.
      * intros [= <- ->]. destruct (proj1 (IH field) eq_refl) as [-> Hno]. auto.
      * intros [-> Hno]. by injection (proj2 (IH s) (conj eq_refl Hno)) as -> ->.
Qed.

Lemma split_pair (sep : ascii) (s a b : string) :
  Py.split sep s = [a; b] <->
  s = a +:+ String sep b /\ has_char sep a = false /\ has_char sep b = false.
Proof.
  revert a. induction s as [|c s IH]; intros a; simpl.
  - split; [done|]. intros [Heq _]. by destruct a.
  - destruct (Py.eqb_ascii c sep) eqn:Hc; simpl.
    + apply eqb_ascii_true in Hc as ->. split.
      * intros [= <- Hs]. apply split_single in Hs as [-> Hno]. auto.
      * intros (Heq & Ha & Hb). destruct a as [|d a]; simpl in *.
        -- injection Heq as ->. f_equal. by apply split_single.
        -- injection Heq as -> _. by rewrite Ascii.eqb_refl in Ha.
    + destruct (Py.split sep s) as [|field fields] eqn:Hs.
      { by apply split_not_nil in Hs. }
      split.
      * intros [= <- ->]. destruct (proj1 (IH field) eq_refl) as (-> & Ha & Hb).
        simpl. by rewrite Hc, Ha.
      * intros (Heq & Ha & Hb). destruct a as [|d a]; simpl in *.
        -- injection Heq as -> _. by rewrite Ascii.eqb_refl in Hc.
        -- injection Heq as -> ->. apply orb_false_iff in Ha as [_ Ha].
           by injection (proj2 (IH a) (conj eq_refl (conj Ha Hb))) as -> ->.
Qed.

Lemma before_split (sep : ascii) (s a b : string) :
  Py.split sep s = [a; b] -> before sep s = a.
Proof.
  intros (-> & Ha & _)%split_pair.
  induction a as [|d a IH]; simpl in *.
  - by rewrite Ascii.eqb_refl.
  - apply orb_false_iff in Ha as [-> Ha]. by rewrite IH.
Qed.

Lemma in_services (service : string) :
  in_ service ["local"; "hosted"] = true <-> service = "local" \/ service = "hosted".
Proof.
  unfold in_. simpl. rewrite orb_false_r, orb_true_iff, !String.eqb_eq. done.
Qed.

Lemma valid_key_split (api_key : string) :
  valid_key api_key <->
  exists service token,
    Py.split "-" (Py.strip api_key) = [service; token] /\
    in_ service ["local"; "hosted"] = true.
Proof.
  split.
  - intros (service & token & Hkey & Hservice & Htoken).
    exists service, token. split; [|by apply in_services].
    apply split_pair. split; [done|]. split; [|done].
    by destruct Hservice as [-> | ->].
  - intros (service & token & Hsplit & Hservice).
    apply split_pair in Hsplit as (Hkey & _ & Htoken).
    exists service, token. split; [done|]. split; [by apply in_services | done].
Qed.

(** What a successful construction leaves in [_api_path]. *)
Lemma init_api_path (api_key api_path : string) (w w' : World) (self : Director) :
  __init__ api_key api_path w = (Return self, w') ->
  (service_of api_key = "hosted" /\
   _api_path self = "http://" +:+ host_of api_path +:+ "/api/") \/
  (service_of api_key = "local" /\
   _api_path self = "http://" +:+ host_of api_path +:+ "/index.php?/api/").
Proof.
  unfold __init__, service_of, host_of.
  destruct (Py.split "-" (Py.strip api_key))
    as [|service [|token [|extra more]]] eqn:Hsplit; try done.
  apply before_split in Hsplit as ->.
  destruct (in_ service ["local"; "hosted"]) eqn:Hservice; [|done].
  apply in_services in Hservice as [-> | ->]; simpl.
  - intros [= <- _]. right. split; [done|]. simpl.
    by rewrite !str_append_assoc.
  - intros [= <- _]. by left.
Qed.

(** C2, as the code has it: construction succeeds exactly for the keys
    that, with the blanks around them removed, read [service-token] with
    the service [local] or [hosted] and no dash in the token, which may
    be empty; every other key raises the configuration error; no request
    is made either way. *)
Theorem construction_accepts_exactly_the_valid_keys
    (api_key api_path : string) (w : World) :
  ((exists self, fst (__init__ api_key api_path w) = Return self)
   <-> valid_key api_key) /\
  (fst (__init__ api_key api_path w) = Raise (ValueError "API key is invalid")
   <-> ~ valid_key api_key) /\
  requests (snd (__init__ api_key api_path w)) = requests w.
Proof.
  rewrite valid_key_split. unfold __init__.
  destruct (Py.split "-" (Py.strip api_key))
    as [|service [|token [|extra more]]] eqn:Hsplit.
  - split; [|split]; [| |done].
    + split; [by intros [? ?] | by intros (? & ? & ? & _)].
    + split; [by intros _ (? & ? & ? & _) | done].
  - split; [|split]; [| |done].
    + split; [by intros [? ?] | by intros (? & ? & ? & _)].
    + split; [by intros _ (? & ? & ? & _) | done].
  - destruct (in_ service ["local"; "hosted"]) eqn:Hservice; cbn [negb].
    + split; [|split]; [| |done].
      * split; [by exists service, token | by eexists].
      * split; [done|]. intros Hno. destruct Hno. by exists service, token.
    + split; [|split]; [| |done].
      * split; [by intros [? ?]|].
        intros (s & t & [= <- <-] & Hs). congruence.
      * split; [|done]. intros _ (s & t & [= <- <-] & Hs). congruence.
  - split; [|split]; [| |done].
    + split; [by intros [? ?] | by intros (? & ? & ? & _)].
    + split; [by intros _ (? & ? & ? & _) | done].
Qed.

(** C2, as stated, fails: a key with an empty token is accepted. *)
Lemma empty_token_is_accepted :
  fst (__init__ "local-" "example.com" (world_replying ""))
  = Return (MkDirector 0 "http://example.com/index.php?/api/").
Proof. by vm_compute. Qed.

(** [rstrip] at the end of a text. *)
Lemma rstrip_snoc_keep (p : ascii -> bool) (s : string) (c : ascii) :
  p c = false -> Py.rstrip p (s +:+ String c "") = s +:+ String c "".
Proof.
  intros Hc. induction s as [|d s IH]; simpl.
  - by rewrite Hc.
  - rewrite IH. by destruct s.
Qed.

Lemma rstrip_snoc_drop (p : ascii -> bool) (s : string) (c : ascii) :
  p c = true -> Py.rstrip p (s +:+ String c "") = Py.rstrip p s.
Proof.
  intros Hc. induction s as [|d s IH]; simpl.
  - by rewrite Hc.
  - by rewrite IH.
Qed.

Lemma rstrip_prefix (p : ascii -> bool) (a b : string) :
  Py.rstrip p b <> "" -> Py.rstrip p (a +:+ b) = a +:+ Py.rstrip p b.
Proof.
  intros Hb. induction a as [|d a IH]; simpl; [done|].
  rewrite IH. destruct a; simpl; [|done]. by destruct (Py.rstrip p b).
Qed.

(** The host of a path that is given with its scheme and a trailing
    slash, and of a path that is given bare. *)
Lemma host_of_strips_scheme_and_slash (h : string) :
  h <> "" ->
  Py.strip h = h ->
  Py.rstrip slash h = h ->
  Py.replace "http://" "" h = h ->
  host_of ("http://" +:+ h +:+ "/") = h /\ host_of h = h.
Proof.
  intros Hne Hstrip Hslash Hscheme. split.
  - unfold host_of, Py.strip.
    change (Py.lstrip Py.isspace ("http://" +:+ h +:+ "/"))
      with ("http://" +:+ h +:+ "/").
    rewrite <- (str_append_assoc "http://" h "/").
    rewrite rstrip_snoc_keep by done.
    rewrite rstrip_snoc_drop by done.
    rewrite rstrip_prefix by (by rewrite Hslash).
    rewrite Hslash. exact Hscheme.
  - unfold host_of. by rewrite Hstrip, Hslash, Hscheme.
Qed.

(** C9, as the code has it: the url of every request is the base path,
    the scope, a question mark and the encoded options with the registry
    merged in; the base path is [http://{host}/api/] for a hosted key and
    [http://{host}/index.php?/api/] for a local one, the host being the
    given path without the blanks around it, its trailing slashes and
    any [http://] in it. *)
Theorem request_url_is_base_scope_query `{Runtime} (api_key api_path : string)
    (w0 w1 : World) (self : Director) (scope : string)
    (options : option (gmap string optval)) (w : World) :
  __init__ api_key api_path w0 = (Return self, w1) ->
  exists base,
    ((service_of api_key = "hosted" /\
      base = "http://" +:+ host_of api_path +:+ "/api/") \/
     (service_of api_key = "local" /\
      base = "http://" +:+ host_of api_path +:+ "/index.php?/api/")) /\
    requests (snd (_get self scope options w))
    = (base +:+ scope +:+ "?" +:+
       urlencode (with_formats (_formats self w) (options_or_empty options)))
      :: requests w.
Proof.
  intros Hinit. exists (_api_path self). split.
  - apply init_api_path in Hinit. tauto.
  - by rewrite get_requests.
Qed.

Lemma request_url_is_base_scope_query_witness :
  requests (snd (@_get reference hosted_client "get_album" None
                   (world_replying body_ok)))
  = ["http://example.com/api/get_album?"].
Proof.
  assert (__init__ "hosted-abc" " http://example.com/ " (world_replying body_ok)
          = (Return hosted_client,
             snd (__init__ "hosted-abc" " http://example.com/ "
                    (world_replying body_ok)))) as Hinit by (by vm_compute).
  destruct (request_url_is_base_scope_query (H := reference) _ _ _ _ _
              "get_album" None (world_replying body_ok) Hinit)
    as (base & [[_ ->]|[Hservice _]] & ->).
  - by vm_compute.
  - by vm_compute in Hservice.
Defined.

(** C9, as stated, fails: for a local key the base path ends in
    [index.php?/api/], with a slash that the pattern
    [http://{host}/{index.php?|}api/] does not have. *)
Lemma local_base_path_has_a_slash_before_api :
  requests (snd ((let! self := __init__ "local-abc" "example.com" in
                  @_get reference self "get_album" None)
                   (world_replying body_ok)))
  = ["http://example.com/index.php?/api/get_album?"] /\
  "http://example.com/index.php?/api/get_album?"
  <> "http://example.com/" +:+ "index.php?" +:+ "api/" +:+ "get_album" +:+ "?"
     +:+ @urlencode reference ∅.
Proof. split; by vm_compute. Qed.

(* ------------------------------------------------------------------ *)
(** ** Arguments that take one value or several *)
(* ------------------------------------------------------------------ *)

Lemma bind_ext {A B} (m : M A) (k1 k2 : A -> M B) (w : World) :
  (forall a w', k1 a w' = k2 a w') -> bind m k1 w = bind m k2 w.
Proof. intros Hk. unfold bind. by destruct (m w) as [[a|e] w']. Qed.

Lemma wrap_one {A} `{Py.Truthy A} (a : A) :
  Py.truthy a = true -> wrap (or_empty (One a)) = wrap (or_empty (Many [a])).
Proof. intros Ha. unfold or_empty. simpl. unfold Py.truthy at 1. simpl. by rewrite Ha. Qed.




(* ------------------------------------------------------------------ *)
(** ** Validation of the accessors' arguments *)
(* ------------------------------------------------------------------ *)

Lemma in_elem_of (x : string) (l : list string) : in_ x l = true <-> x ∈ l.
Proof.
  unfold in_. rewrite existsb_exists. split.
  - intros (y & Hin & ->%String.eqb_eq). by apply list_elem_of_In.
  - intros Hin. exists x. split; [by apply list_elem_of_In | apply String.eqb_refl].
Qed.

Lemma in_not_elem_of (x : string) (l : list string) : in_ x l = false <-> x ∉ l.
Proof.
  rewrite <- in_elem_of. by destruct (in_ x l).
Qed.

Lemma bad_scope_false (scope : option string) :
  bad_scope scope = false <-> scope_ok scope.
Proof.
  unfold bad_scope, scope_ok. destruct scope as [[|c s]|].
  - split; [by right; left | done].
  - change (Py.truthy (Some (String c s))) with true. cbn [andb].
    change ["gallery"; "album"] with scope_values.
    rewrite negb_false_iff, in_elem_of. split.
    + intros Hin. right. right. by exists (String c s).
    + intros [|[|(s' & [= <-] & Hin)]]; done.
  - split; [by left | done].
Qed.

Lemma get_no_value_error `{Runtime} (self : Director) (scope : string)
    (options : option (gmap string optval)) (w : World) (msg : string) :
  fst (_get self scope options w) <> Raise (ValueError msg).
Proof.
  rewrite get_run. simpl.
  destruct (service w _) as [|code body]; [done|].
  destruct (code =? 200); [|done].
  unfold decode. destruct (json_loads _) as [detail|response]; [done|].
  unfold unwrap, getitem, raise, ret.
  destruct response as [| | | | | |members]; try done.
  destruct (last_member "stat" members) as [stat|]; [|done].
  destruct (ne_str stat "ok").
  - by destruct (last_member "error" members).
  - by destruct (last_member "data" members).
Qed.

(** The number drawn for a random sort is within the bounds. *)
Lemma randint_in_range (lo hi : Z) (w : World) :
  lo <= hi ->
  exists n, fst (randint lo hi w) = Return n /\ lo <= n <= hi /\
            requests (snd (randint lo hi w)) = requests w.
Proof.
  intros Hle. eexists. split; [done|]. split; [|done].
  pose proof (Z.mod_pos_bound (entropy w (draws w)) (hi - lo + 1)). lia.
Qed.

(** The tail of an accessor: one request, then one member of the data. *)
Lemma fetch_world `{Runtime} (self : Director) (scope : string)
    (options : option (gmap string optval)) (key : string) (w : World) :
  snd ((let! data := _get self scope options in getitem data key ret) w)
  = logged (request_url self scope options w) w.
Proof.
  unfold bind. pose proof (get_requests self scope options w) as Hw.
  destruct (_get self scope options w) as [[data|e] w']; simpl in *; [|done].
  unfold getitem, raise, ret.
  destruct data as [| | | | | |members]; try done.
  by destruct (last_member key members).
Qed.

Lemma fetch_no_value_error `{Runtime} (self : Director) (scope : string)
    (options : option (gmap string optval)) (key : string) (w : World)
    (msg : string) :
  fst ((let! data := _get self scope options in getitem data key ret) w)
  <> Raise (ValueError msg).
Proof.
  unfold bind. pose proof (get_no_value_error self scope options w msg) as Hget.
  destruct (_get self scope options w) as [[data|e] w']; simpl in *; [|done].
  unfold getitem, raise, ret.
  destruct data as [| | | | | |members]; try done.
  by destruct (last_member key members).
Qed.

(** C6: each accessor checks its enumerated arguments before anything
    else.  A value outside the allowed set ends the call with the
    configuration error and leaves the world as it was, so no request is
    made; with every value inside its set the call goes on to make its
    request and does not end in a configuration error. *)
Theorem enumerated_arguments_are_validated `{Runtime} {A} `{Py.Truthy A}
    `{Py.Str A} (self : Director) (w : World) :
  (forall gallery_id limit order with_content,
     let r := get_gallery self gallery_id limit order with_content w in
     (order ∈ order_values /\
      (exists url, requests (snd r) = url :: requests w) /\
      (forall msg, fst r <> Raise (ValueError msg))) \/
     ((order ∉ order_values) /\ exists msg, r = (Raise (ValueError msg), w))) /\
  (forall limit only_images only_active sort_on sort_direction scope scope_id
          (tags : arg A) tags_exclusive,
     let r := get_contents self limit only_images only_active sort_on
                sort_direction scope scope_id tags tags_exclusive w in
     let valid := sort_on ∈ sort_on_values /\
                  sort_direction ∈ sort_direction_values /\
                  scope_ok scope in
     (valid /\
      (exists url, requests (snd r) = url :: requests w) /\
      (forall msg, fst r <> Raise (ValueError msg))) \/
     (~ valid /\ exists msg, r = (Raise (ValueError msg), w))) /\
  (forall sort scope scope_id scope_all,
     let r := get_users self sort scope scope_id scope_all w in
     let valid := sort ∈ sort_values /\ scope_ok scope in
     (valid /\
      (exists url, requests (snd r) = url :: requests w) /\
      (forall msg, fst r <> Raise (ValueError msg))) \/
     (~ valid /\ exists msg, r = (Raise (ValueError msg), w))).
Proof.
  split; [|split].
  - intros gallery_id limit order with_content r. subst r. unfold get_gallery.
    change ["display"; "created_on"; "modified_on"] with order_values.
    destruct (in_ order order_values) eqn:Horder; cbn [negb].
    + left. split; [by apply in_elem_of|]. split.
      * eexists. by rewrite get_requests.
      * intros msg. apply get_no_value_error.
    + right. split; [by apply in_not_elem_of | by eexists].
  - intros limit only_images only_active sort_on sort_direction scope scope_id
           tags tags_exclusive r valid. subst r valid. unfold get_contents.
    change ["created_on"; "captured_on"; "modified_on"; "filename"; "random"]
      with sort_on_values.
    change ["desc"; "asc"] with sort_direction_values.
    destruct (in_ sort_on sort_on_values) eqn:Hsort_on; cbn [negb].
    2:{ right. split; [|by eexists].
        intros (Hin & _). apply in_elem_of in Hin. congruence. }
    destruct (in_ sort_direction sort_direction_values) eqn:Hdirection; cbn [negb].
    2:{ right. split; [|by eexists].
        intros (_ & Hin & _). apply in_elem_of in Hin. congruence. }
    destruct (bad_scope scope) eqn:Hscope.
    { right. split; [|by eexists].
      intros (_ & _ & Hok). apply bad_scope_false in Hok. congruence. }
    left. split.
    { split; [by apply in_elem_of|]. split; [by apply in_elem_of|].
      by apply bad_scope_false. }
    unfold bind at 1.
    destruct (String.eqb sort_on "random"); simpl.
    + split.
      * eexists. by rewrite fetch_world.
      * intros msg. apply fetch_no_value_error.
    + split.
      * eexists. by rewrite fetch_world.
      * intros msg. apply fetch_no_value_error.
  - intros sort scope scope_id scope_all r valid. subst r valid. unfold get_users.
    change ["name"; "activity"] with sort_values.
    destruct (in_ sort sort_values) eqn:Hsort; cbn [negb].
    2:{ right. split; [|by eexists].
        intros (Hin & _). apply in_elem_of in Hin. congruence. }
    destruct (bad_scope scope) eqn:Hscope.
    { right. split; [|by eexists].
      intros (_ & Hok). apply bad_scope_false in Hok. congruence. }
    left. split.
    { split; [by apply in_elem_of | by apply bad_scope_false]. }
    split.
    + eexists. by rewrite fetch_world.
    + intros msg. apply fetch_no_value_error.
Qed.

(* ------------------------------------------------------------------ *)
(** ** The scope filter *)
(* ------------------------------------------------------------------ *)

Lemma both_truthy (scope : option string) (scope_id : option Z) :
  Py.truthy scope && Py.truthy scope_id = true <-> both_supplied scope scope_id.
Proof.
  unfold both_supplied. rewrite andb_true_iff.
  assert (Py.truthy scope = true <-> exists s, scope = Some s /\ s <> "") as ->.
  { destruct scope as [[|c s]|]; split; try done.
    - by intros (s & [= <-] & Hs).
    - intros _. by exists (String c s).
    - by intros (s & ? & _). }
  assert (Py.truthy scope_id = true <-> exists i, scope_id = Some i /\ i <> 0) as ->.
  { destruct scope_id as [i|]; split; try done.
    - intros Hi. exists i. split; [done|].
      unfold Py.truthy in Hi. simpl in Hi. unfold Py.truthy, Py.truthy_Z in Hi.
      apply negb_true_iff in Hi. by apply Z.eqb_neq.
    - intros (j & [= <-] & Hj). unfold Py.truthy. simpl.
      unfold Py.truthy, Py.truthy_Z. by apply negb_true_iff, Z.eqb_neq.
    - by intros (j & ? & _). }
  done.
Qed.

Lemma contents_scope_keys {A} `{Py.Truthy A} `{Py.Str A}
    (limit : Z) (only_images only_active : bool) (sort_on sort_direction : string)
    (scope : option string) (scope_id : option Z) (tags : arg A)
    (tags_exclusive : bool) (buster : option Z) :
  let options := get_contents_options limit only_images only_active sort_on
                   sort_direction scope scope_id tags tags_exclusive buster in
  options !! "scope"
    = (if Py.truthy scope && Py.truthy scope_id then OStr <$> scope else None) /\
  options !! "scope_id"
    = (if Py.truthy scope && Py.truthy scope_id then OInt <$> scope_id else None).
Proof.
  unfold get_contents_options.
  destruct (Py.truthy (wrap (or_empty tags))), buster as [b|],
    (Py.truthy scope && Py.truthy scope_id) eqn:Hboth;
    try (apply both_truthy in Hboth as [(s & -> & _) (i & -> & _)]);
    unfold dict, update; simpl; by simplify_map_eq.
Qed.

Lemma users_scope_keys (sort : string) (scope : option string)
    (scope_id : option Z) (scope_all : bool) :
  let options := get_users_options sort scope scope_id scope_all in
  options !! "user_scope_model"
    = (if Py.truthy scope && Py.truthy scope_id then OStr <$> scope else None) /\
  options !! "user_scope_id"
    = (if Py.truthy scope && Py.truthy scope_id then OInt <$> scope_id else None) /\
  options !! "user_scope_all"
    = (if Py.truthy scope && Py.truthy scope_id
       then Some (OInt (Py.int_bool scope_all)) else None).
Proof.
  unfold get_users_options.
  destruct (Py.truthy scope && Py.truthy scope_id) eqn:Hboth;
    try (apply both_truthy in Hboth as [(s & -> & _) (i & -> & _)]);
    unfold dict, update; simpl; by simplify_map_eq.
Qed.

Lemma options_without_both {A} `{Py.Truthy A} `{Py.Str A}
    (limit : Z) (only_images only_active : bool) (sort_on sort_direction : string)
    (scope : option string) (scope_id : option Z) (tags : arg A)
    (tags_exclusive : bool) (buster : option Z) (sort : string) (scope_all : bool) :
  Py.truthy scope && Py.truthy scope_id = false ->
  get_contents_options limit only_images only_active sort_on sort_direction
    scope scope_id tags tags_exclusive buster
  = get_contents_options limit only_images only_active sort_on sort_direction
      None None tags tags_exclusive buster /\
  get_users_options sort scope scope_id scope_all
  = get_users_options sort None None scope_all.
Proof.
  intros Hboth. unfold get_contents_options, get_users_options.
  by rewrite Hboth.
Qed.



(* ------------------------------------------------------------------ *)
(** ** The format registry and the instances *)
(* ------------------------------------------------------------------ *)

(** It is seen by another instance too when neither has a dictionary of
    its own: both name the dictionary of the class. *)
Lemma mutate_formats_shared (a b : Director) (f : formats -> formats) (w : World) :
  own_formats w !! oid a = None ->
  own_formats w !! oid b = None ->
  _formats b (snd (mutate_formats a f w)) = f (_formats b w).
Proof.
  intros Ha Hb. unfold mutate_formats, _formats. rewrite Ha. simpl. by rewrite Hb.
Qed.

(** It is not seen by another instance as soon as one of the two has a
    dictionary of its own. *)
Lemma mutate_formats_private (a b : Director) (f : formats -> formats) (w : World) :
  oid a <> oid b ->
  is_Some (own_formats w !! oid a) \/ is_Some (own_formats w !! oid b) ->
  _formats b (snd (mutate_formats a f w)) = _formats b w.
Proof.
  intros Hne Hown. unfold mutate_formats, _formats.
  destruct (own_formats w !! oid a) as [own|] eqn:Ha; simpl.
  - by rewrite lookup_insert_ne.
  - destruct Hown as [[? ?]|[own Hb]]; [done|]. by rewrite Hb.
Qed.

(** [clear_formats] gives the instance a dictionary of its own. *)
Lemma clear_formats_own (self : Director) (w : World) :
  own_formats (snd (clear_formats self w)) !! oid self = Some no_formats.
Proof. unfold clear_formats, bind_formats. simpl. apply lookup_insert_eq. Qed.

(** A request leaves every registry as it is. *)
Lemma get_keeps_formats `{Runtime} (self other : Director) (scope : string)
    (options : option (gmap string optval)) (w : World) :
  _formats other (snd (_get self scope options w)) = _formats other w.
Proof. by rewrite get_requests. Qed.

(** C1: on the code, two clients that were just built share one
    registry: the formats added and the preview set through the first are
    in the registry of the second, which made no call at all. *)
Theorem fresh_instances_share_one_registry :
  let program :=
    let! a := __init__ "hosted-abc" "example.com" in
    let! b := __init__ "hosted-abc" "example.com" in
    let! before := read_formats b in
    let! _ := add_format a "thumb" 150 120 true 75 true in
    let! _ := add_user_format a "medium" 150 120 true 75 true in
    let! _ := set_preview_format a 132322 123223 true 75 true in
    let! after := read_formats b in
    ret (oid a, oid b, before, after) in
  fst (program (world_replying body_ok))
  = Return (0%nat, 1%nat, no_formats,
            Formats [("thumb", 150, 120, 1, 75, 1)]
                    [("medium", 150, 120, 1, 75, 1)]
                    (Some (132322, 123223, 1, 75, 1))).
Proof. by vm_compute. Qed.

(** Once the second client has called [clear_formats], the first no
    longer reaches it. *)
Lemma cleared_instance_is_isolated (a b : Director) (w : World)
    (name : string) (width height : Z) (crop : bool) (quality : Z)
    (sharpening : bool) :
  oid a <> oid b ->
  let w1 := snd (clear_formats b w) in
  _formats b (snd (add_format a name width height crop quality sharpening w1))
  = no_formats.
Proof.
  intros Hne w1. unfold add_format.
  rewrite mutate_formats_private; [| done | right; subst w1].
  - subst w1. unfold _formats. by rewrite clear_formats_own.
  - rewrite clear_formats_own. by eexists.
Qed.

(* ------------------------------------------------------------------ *)
(** ** The client at work *)
(* ------------------------------------------------------------------ *)

Example sanitise_keeps_escapes :
  Re.sub regex "" (Ref.q "{'a':'x\'y \/ \u0041'}") = Ref.q "{'a':'x\'y \/ \u0041'}" /\
  Ref.json_loads (Ref.q "{'a':'x\'y \/ \u0041'}") = inr (JObj [("a", JStr (Ref.q "x'y / A"))]).
Proof. by vm_compute. Qed.

Example sanitise_drops_other_backslashes :
  Re.sub regex "" "a\nb\\c\" = "anbc".
Proof. by vm_compute. Qed.

Example get_version_returns_the_version :
  fst (@get_version reference hosted_client (world_replying body_ok))
  = Return (JStr "4.2").
Proof. by vm_compute. Qed.

Example get_gallery_reports_the_service_error :
  fst (@get_gallery reference hosted_client 10001 0 "display" true
         (world_replying body_fail))
  = Raise (DirectorError (JStr "Gallery not found")).
Proof. by vm_compute. Qed.

Example tags_are_joined :
  get_albums_options true true false false false (Many ["vacation"; "summer"]) false
    !! "tags" = Some (OStr "vacation,summer") /\
  get_albums_options true true false false false (Many ["vacation"; "summer"]) false
    !! "tags_exclusive" = Some (OInt 0) /\
  get_albums_options true true false false false (Many (A := string) []) false
    !! "tags" = None /\
  get_albums_options true true false false false (Many (A := string) []) false
    !! "tags_exclusive" = None.
Proof. by vm_compute. Qed.

Example formats_round_trip :
  let program :=
    let! d := __init__ "hosted-abc" "example.com" in
    let! _ := clear_formats d in
    let! _ := add_format d "thumb" 150 120 true 75 true in
    let! _ := add_user_format d "medium" 150 120 true 75 true in
    let! _ := set_preview_format d 132322 123223 true 75 true in
    let! full := read_formats d in
    let! _ := clear_formats d in
    let! empty := read_formats d in
    ret (length (sizes full), length (user_sizes full), preview full, empty) in
  fst (program (world_replying body_ok))
  = Return (1%nat, 1%nat, Some (132322, 123223, 1, 75, 1), no_formats).
Proof. by vm_compute. Qed.

Example request_carries_the_formats :
  let program :=
    let! d := __init__ "local-abc" " http://example.com/ " in
    let! _ := add_format d "thumb" 150 120 true 75 true in
    let! _ := add_format d "large" 800 600 false 90 false in
    @get_album reference d 5 true in
  requests (snd (program (world_replying body_ok)))
  = ["http://example.com/index.php?/api/get_album?only_active=1&size%5B1%5D=thumb%2C150%2C120%2C1%2C75%2C1&size%5B2%5D=large%2C800%2C600%2C0%2C90%2C0&album_id=5"].
Proof. by vm_compute. Qed.

Example random_sort_draws_a_buster :
  requests (snd (@get_contents reference string _ _ hosted_client 5 false true
                   "random" "asc" (Some "album") (Some 441975) (One "suv") true
                   (world_replying body_ok)))
  = ["http://example.com/api/get_content_list?only_images=0&only_active=1&sort_on=random&sort_direction=ASC&scope_id=441975&scope=album&buster=42&limit=5&tags_exclusive=1&tags=suv"].
Proof. by vm_compute. Qed.

Example cache_is_not_implemented :
  fst (set_cache hosted_client "key" None (world_replying body_ok))
  = Raise NotImplementedError /\
  fst (disable_cache hosted_client (world_replying body_ok))
  = Raise NotImplementedError.
Proof. by vm_compute. Qed.

(* ------------------------------------------------------------------ *)
(** ** The accessors, end to end *)
(* ------------------------------------------------------------------ *)

Lemma getitem_ret (data : json) (key : string) (w : World) :
  getitem data key ret w = (subscript data key, w).
Proof.
  unfold getitem, subscript, raise, ret.
  destruct data as [| | | | | |members]; try done.
  by destruct (last_member key members).
Qed.

Lemma get_refused `{Runtime} (self : Director) (scope : string)
    (options : option (gmap string optval)) (w : World) :
  failed (service w (request_url self scope options w)) = true ->
  _get self scope options w
  = (Raise (DirectorConnectionError
              match service w (request_url self scope options w) with
              | IOError =>
                  "Couldn't connect to url: " +:+ request_url self scope options w
              | Response _ _ =>
                  "Endpoint could not be reached: " +:+ _api_path self +:+ scope
              end),
     logged (request_url self scope options w) w).
Proof.
  intros Hfailed. rewrite get_run. simpl.
  destruct (service w _) as [|code body]; [done|].
  simpl in Hfailed. apply negb_true_iff in Hfailed. by rewrite Hfailed.
Qed.

Lemma fetch_refused `{Runtime} (self : Director) (scope : string)
    (options : option (gmap string optval)) (key : string) (w : World) :
  (forall url, failed (service w url) = true) ->
  exists msg,
    fst ((let! data := _get self scope options in getitem data key ret) w)
    = Raise (DirectorConnectionError msg).
Proof.
  intros Hfailed. unfold bind. rewrite get_refused by apply Hfailed. by eexists.
Qed.

(** X1: when the service cannot be reached ([urlopen] raises, or the
    status is not 200), [_get] raises the connection error, naming the
    url in the first case and the endpoint without its query in the
    second, whatever the body holds; and every accessor whose arguments
    are accepted ends in that connection error. *)
Theorem connection_failure_ends_every_call `{Runtime} {A} `{Py.Truthy A}
    `{Py.Str A} (self : Director) (w : World) :
  (forall url, failed (service w url) = true) ->
  let refused (r : outcome json * World) :=
    exists msg, fst r = Raise (DirectorConnectionError msg) in
  (forall scope options,
     fst (_get self scope options w)
     = Raise (DirectorConnectionError
                match service w (request_url self scope options w) with
                | IOError =>
                    "Couldn't connect to url: " +:+ request_url self scope options w
                | Response _ _ =>
                    "Endpoint could not be reached: " +:+ _api_path self +:+ scope
                end)) /\
  refused (get_version self w) /\
  refused (get_limits self w) /\
  refused (get_totals self w) /\
  refused (get_galleries self w) /\
  (forall gallery_id limit order with_content,
     order ∈ order_values ->
     refused (get_gallery self gallery_id limit order with_content w)) /\
  (forall only_published only_active list_only only_smart exclude_smart
          (tags : arg A) tags_exclusive,
     refused (get_albums self only_published only_active list_only only_smart
                exclude_smart tags tags_exclusive w)) /\
  (forall album_id only_active, refused (get_album self album_id only_active w)) /\
  (forall album_id exclude, refused (get_galleries_by_album self album_id exclude w)) /\
  (forall limit only_images only_active sort_on sort_direction scope scope_id
          (tags : arg A) tags_exclusive,
     sort_on ∈ sort_on_values ->
     sort_direction ∈ sort_direction_values ->
     scope_ok scope ->
     refused (get_contents self limit only_images only_active sort_on
                sort_direction scope scope_id tags tags_exclusive w)) /\
  (forall content_id, refused (get_content self content_id w)) /\
  (forall sort scope scope_id scope_all,
     sort ∈ sort_values ->
     scope_ok scope ->
     refused (get_users self sort scope scope_id scope_all w)).
Proof.
  intros Hfailed refused. subst refused. cbv beta.
  assert (forall scope options,
            exists msg, fst (_get self scope options w)
                        = Raise (DirectorConnectionError msg)) as Hplain.
  { intros. rewrite get_refused by apply Hfailed. by eexists. }
  repeat split.
  - intros. by rewrite get_refused by apply Hfailed.
  - by apply fetch_refused.
  - apply Hplain.
  - apply Hplain.
  - by apply fetch_refused.
  - intros gallery_id limit order with_content Horder. unfold get_gallery.
    apply in_elem_of in Horder. unfold order_values in Horder. rewrite Horder.
    apply Hplain.
  - intros. by apply fetch_refused.
  - intros. apply Hplain.
  - intros. by apply fetch_refused.
  - intros limit only_images only_active sort_on sort_direction scope scope_id
           tags tags_exclusive Hsort_on Hdirection Hscope. unfold get_contents.
    apply in_elem_of in Hsort_on, Hdirection. apply bad_scope_false in Hscope.
    unfold sort_on_values in Hsort_on. unfold sort_direction_values in Hdirection.
    rewrite Hsort_on, Hdirection, Hscope. cbn [negb].
    unfold bind at 1. destruct (String.eqb sort_on "random"); simpl.
    + by apply fetch_refused.
    + by apply fetch_refused.
  - intros. apply Hplain.
  - intros sort scope scope_id scope_all Hsort Hscope. unfold get_users.
    apply in_elem_of in Hsort. apply bad_scope_false in Hscope.
    unfold sort_values in Hsort. rewrite Hsort, Hscope. cbn [negb].
    by apply fetch_refused.
Qed.

Lemma connection_failure_ends_every_call_witness :
  fst (@get_version reference hosted_client (world_with IOError))
  = Raise (DirectorConnectionError
             "Couldn't connect to url: http://example.com/api/app_version?") /\
  fst (@_get reference hosted_client "get_album" None
         (world_with (Response 404 body_ok)))
  = Raise (DirectorConnectionError
             "Endpoint could not be reached: http://example.com/api/get_album").
Proof.
  split.
  - destruct (@connection_failure_ends_every_call reference string _ _
                hosted_client (world_with IOError) (fun _ => eq_refl))
      as (_ & [msg Hversion] & _).
    rewrite Hversion. revert Hversion. by vm_compute.
  - destruct (@connection_failure_ends_every_call reference string _ _
                hosted_client (world_with (Response 404 body_ok))
                (fun _ => eq_refl)) as (Hget & _).
    rewrite Hget. by vm_compute.
Defined.

Lemma get_ok `{Runtime} (self : Director) (scope : string)
    (options : option (gmap string optval)) (w : World) (body : string)
    (members : list (string * json)) (data : json) :
  service w (request_url self scope options w) = Response 200 body ->
  json_loads (without_stray body) = inr (JObj members) ->
  last_member "stat" members = Some (JStr "ok") ->
  last_member "data" members = Some data ->
  _get self scope options w
  = (Return data, logged (request_url self scope options w) w).
Proof.
  intros Hreply Hjson Hstat Hdata. rewrite get_run. simpl. rewrite Hreply. simpl.
  unfold decode. rewrite sub_without_stray, Hjson.
  unfold unwrap, getitem. by rewrite Hstat, Hdata.
Qed.

Lemma fetch_ok `{Runtime} (self : Director) (scope : string)
    (options : option (gmap string optval)) (key : string) (w : World)
    (body : string) (members : list (string * json)) (data : json) :
  (forall url, service w url = Response 200 body) ->
  json_loads (without_stray body) = inr (JObj members) ->
  last_member "stat" members = Some (JStr "ok") ->
  last_member "data" members = Some data ->
  fst ((let! data := _get self scope options in getitem data key ret) w)
  = subscript data key.
Proof.
  intros Hreply Hjson Hstat Hdata. unfold bind.
  rewrite (get_ok self scope options w body members data) by done.
  by rewrite getitem_ret.
Qed.

(** X2: when the service answers every request with an envelope whose
    ['stat'] is "ok", the accessors for one object (limits, totals, one
    gallery, one album, one content) return the ['data'] payload as it
    is, and the accessors for a list or a version return the member of
    the payload they name; a payload without that member makes them
    raise [KeyError], a payload that is no object [TypeError]. *)
Theorem accessors_hand_back_the_payload `{Runtime} {A} `{Py.Truthy A}
    `{Py.Str A} (self : Director) (w : World) (body : string)
    (members : list (string * json)) (data : json) :
  (forall url, service w url = Response 200 body) ->
  json_loads (without_stray body) = inr (JObj members) ->
  last_member "stat" members = Some (JStr "ok") ->
  last_member "data" members = Some data ->
  fst (get_version self w) = subscript data "version" /\
  fst (get_limits self w) = Return data /\
  fst (get_totals self w) = Return data /\
  fst (get_galleries self w) = subscript data "galleries" /\
  (forall gallery_id limit order with_content,
     order ∈ order_values ->
     fst (get_gallery self gallery_id limit order with_content w) = Return data) /\
  (forall only_published only_active list_only only_smart exclude_smart
          (tags : arg A) tags_exclusive,
     fst (get_albums self only_published only_active list_only only_smart
            exclude_smart tags tags_exclusive w) = subscript data "albums") /\
  (forall album_id only_active,
     fst (get_album self album_id only_active w) = Return data) /\
  (forall album_id exclude,
     fst (get_galleries_by_album self album_id exclude w)
     = subscript data "galleries") /\
  (forall limit only_images only_active sort_on sort_direction scope scope_id
          (tags : arg A) tags_exclusive,
     sort_on ∈ sort_on_values ->
     sort_direction ∈ sort_direction_values ->
     scope_ok scope ->
     fst (get_contents self limit only_images only_active sort_on
            sort_direction scope scope_id tags tags_exclusive w)
     = subscript data "contents") /\
  (forall content_id, fst (get_content self content_id w) = Return data) /\
  (forall sort scope scope_id scope_all,
     sort ∈ sort_values ->
     scope_ok scope ->
     fst (get_users self sort scope scope_id scope_all w) = subscript data "users").
Proof.
  intros Hreply Hjson Hstat Hdata.
  assert (forall scope options, fst (_get self scope options w) = Return data)
    as Hplain.
  { intros. by rewrite (get_ok self scope options w body members data). }
  repeat split.
  - by apply (fetch_ok _ _ _ _ _ body members).
  - apply Hplain.
  - apply Hplain.
  - by apply (fetch_ok _ _ _ _ _ body members).
  - intros gallery_id limit order with_content Horder. unfold get_gallery.
    apply in_elem_of in Horder. unfold order_values in Horder. rewrite Horder.
    apply Hplain.
  - intros. by apply (fetch_ok _ _ _ _ _ body members).
  - intros. apply Hplain.
  - intros. by apply (fetch_ok _ _ _ _ _ body members).
  - intros limit only_images only_active sort_on sort_direction scope scope_id
           tags tags_exclusive Hsort_on Hdirection Hscope. unfold get_contents.
    apply in_elem_of in Hsort_on, Hdirection. apply bad_scope_false in Hscope.
    unfold sort_on_values in Hsort_on. unfold sort_direction_values in Hdirection.
    rewrite Hsort_on, Hdirection, Hscope. cbn [negb].
    unfold bind at 1. destruct (String.eqb sort_on "random"); simpl.
    + by apply (fetch_ok _ _ _ _ _ body members).
    + by apply (fetch_ok _ _ _ _ _ body members).
  - intros. apply Hplain.
  - intros sort scope scope_id scope_all Hsort Hscope. unfold get_users.
    apply in_elem_of in Hsort. apply bad_scope_false in Hscope.
    unfold sort_values in Hsort. rewrite Hsort, Hscope. cbn [negb].
    by apply (fetch_ok _ _ _ _ _ body members).
Qed.

Lemma accessors_hand_back_the_payload_witness :
  fst (@get_version reference hosted_client (world_replying body_ok))
  = Return (JStr "4.2") /\
  fst (@get_galleries reference hosted_client (world_replying body_ok))
  = Raise (KeyError "galleries").
Proof.
  assert (Ref.json_loads (without_stray body_ok)
          = inr (JObj [("stat", JStr "ok");
                       ("data", JObj [("version", JStr "4.2")])])) as Hjson
    by (by vm_compute).
  destruct (@accessors_hand_back_the_payload reference string _ _ hosted_client
              (world_replying body_ok) body_ok _ _ (fun _ => eq_refl) Hjson
              eq_refl eq_refl)
    as (Hversion & _ & _ & Hgalleries & _).
  by rewrite Hversion, Hgalleries.
Defined.

Lemma quiet_refl (w : World) : quiet w w.
Proof. unfold quiet. auto. Qed.

Lemma quiet_logged (url : string) (w : World) : quiet w (logged url w).
Proof. unfold quiet, logged. simpl. eauto. Qed.

Lemma quiet_fetch `{Runtime} (self : Director) (scope : string)
    (options : option (gmap string optval)) (key : string) (w0 w : World) :
  class_formats w = class_formats w0 ->
  own_formats w = own_formats w0 ->
  requests w = requests w0 ->
  quiet w0 (snd ((let! data := _get self scope options in getitem data key ret) w)).
Proof.
  intros Hclass Hown Hrequests. rewrite fetch_world.
  unfold quiet, logged. simpl. rewrite Hrequests. eauto.
Qed.

(** X3: no accessor and no cache call changes a format registry, and
    each makes at most one request: a call that is refused for its
    arguments makes none, and the two cache calls do nothing but raise
    [NotImplementedError]. *)
Theorem accessors_leave_the_registry_alone `{Runtime} {A} `{Py.Truthy A}
    `{Py.Str A} (self : Director) (w : World) :
  (forall scope options, quiet w (snd (_get self scope options w))) /\
  quiet w (snd (get_version self w)) /\
  quiet w (snd (get_limits self w)) /\
  quiet w (snd (get_totals self w)) /\
  quiet w (snd (get_galleries self w)) /\
  (forall gallery_id limit order with_content,
     quiet w (snd (get_gallery self gallery_id limit order with_content w))) /\
  (forall only_published only_active list_only only_smart exclude_smart
          (tags : arg A) tags_exclusive,
     quiet w (snd (get_albums self only_published only_active list_only
                     only_smart exclude_smart tags tags_exclusive w))) /\
  (forall album_id only_active,
     quiet w (snd (get_album self album_id only_active w))) /\
  (forall album_id exclude,
     quiet w (snd (get_galleries_by_album self album_id exclude w))) /\
  (forall limit only_images only_active sort_on sort_direction scope scope_id
          (tags : arg A) tags_exclusive,
     quiet w (snd (get_contents self limit only_images only_active sort_on
                     sort_direction scope scope_id tags tags_exclusive w))) /\
  (forall content_id, quiet w (snd (get_content self content_id w))) /\
  (forall sort scope scope_id scope_all,
     quiet w (snd (get_users self sort scope scope_id scope_all w))) /\
  (forall key expire,
     set_cache self key expire w = (Raise NotImplementedError, w)) /\
  disable_cache self w = (Raise NotImplementedError, w).
Proof.
  assert (forall scope options, quiet w (snd (_get self scope options w)))
    as Hplain.
  { intros. rewrite get_requests. apply quiet_logged. }
  repeat apply conj; try done; try (intros; apply Hplain);
    try (intros; by apply quiet_fetch).
  - intros. unfold get_gallery.
    destruct (negb (in_ order _)); [apply quiet_refl | apply Hplain].
  - intros. unfold get_contents.
    destruct (negb (in_ sort_on _)); [apply quiet_refl|].
    destruct (negb (in_ sort_direction _)); [apply quiet_refl|].
    destruct (bad_scope scope); [apply quiet_refl|].
    unfold bind at 1. destruct (String.eqb sort_on "random"); simpl;
      by apply quiet_fetch.
  - intros. unfold get_users.
    destruct (negb (in_ sort _)); [apply quiet_refl|].
    destruct (bad_scope scope); [apply quiet_refl|].
    by apply quiet_fetch.
Qed.

(* ------------------------------------------------------------------ *)
(** ** What the accessors put in the options *)
(* ------------------------------------------------------------------ *)

Lemma wrap_values {A} `{Py.Truthy A} (x : arg A) : wrap (or_empty x) = values_of x.
Proof.
  unfold or_empty, values_of. destruct x as [|a|l]; simpl.
  - done.
  - unfold Py.truthy at 1. simpl. by destruct (Py.truthy a).
  - by destruct l.
Qed.

Lemma options_or_empty_some (d : gmap string optval) :
  options_or_empty (Some d) = d.
Proof.
  unfold options_or_empty, Py.truthy. simpl. unfold Py.truthy, truthy_dict.
  by case_bool_decide.
Qed.


Lemma split_app (sep : ascii) (a rest : string) :
  has_char sep a = false ->
  Py.split sep (a +:+ String sep rest) = a :: Py.split sep rest.
Proof.
  intros Ha. induction a as [|c a IH]; simpl in *.
  - by rewrite Ascii.eqb_refl.
  - apply orb_false_iff in Ha as [Hc Ha]. rewrite Hc. by rewrite IH.
Qed.

Lemma split_join (sep : ascii) (l : list string) :
  l <> [] ->
  Forall (fun s => has_char sep s = false) l ->
  Py.split sep (Py.join (String sep "") l) = l.
Proof.
  intros Hne Hall. induction Hall as [|a l Ha Hall IH]; [done|].
  destruct l as [|b l].
  - simpl. by apply split_single.
  - change (Py.join (String sep "") (a :: b :: l))
      with (a +:+ String sep "" +:+ Py.join (String sep "") (b :: l)).
    change (String sep "" +:+ Py.join (String sep "") (b :: l))
      with (String sep (Py.join (String sep "") (b :: l))).
    rewrite split_app by done. by rewrite IH.
Qed.

Lemma map_str_string (l : list string) : map Py.str l = l.
Proof. induction l as [|a l IH]; [done|]. simpl. by rewrite IH. Qed.

(** X5: for tags that hold no comma, the value sent under ['tags']
    determines the list of tags: splitting it at its commas gives the
    list back, so two different lists are never sent as the same value. *)
Theorem comma_free_tags_are_sent_faithfully (l1 l2 : list string) :
  l1 <> [] ->
  l2 <> [] ->
  Forall (fun tag => has_char "," tag = false) l1 ->
  Forall (fun tag => has_char "," tag = false) l2 ->
  Py.split "," (join_tags l1) = l1 /\
  (join_tags l1 = join_tags l2 -> l1 = l2).
Proof.
  intros Hne1 Hne2 Hfree1 Hfree2. unfold join_tags. rewrite !map_str_string.
  split; [by apply split_join|].
  intros Heq. rewrite <- (split_join "," l1), <- (split_join "," l2) by done.
  by rewrite Heq.
Qed.

Lemma comma_free_tags_are_sent_faithfully_witness :
  Py.split "," (join_tags ["vacation"; "summer"; ""]) = ["vacation"; "summer"; ""].
Proof.
  apply (comma_free_tags_are_sent_faithfully
           ["vacation"; "summer"; ""] ["vacation"; "summer"; ""]);
    try done; by repeat constructor.
Defined.

(** X6: the content listing draws a cache buster exactly when the sort
    is ['random']: the number lies between 1 and 1000000, is sent under
    ['buster'], and the next call draws anew; any other sort sends no
    buster and draws nothing.  The sort direction is sent in upper case.
    The request goes to [get_content_list] with these options and the
    registry. *)
Theorem random_sort_draws_a_fresh_buster `{Runtime} {A} `{Py.Truthy A}
    `{Py.Str A} (self : Director) (limit : Z) (only_images only_active : bool)
    (sort_on sort_direction : string) (scope : option string)
    (scope_id : option Z) (tags : arg A) (tags_exclusive : bool) (w : World) :
  sort_on ∈ sort_on_values ->
  sort_direction ∈ sort_direction_values ->
  scope_ok scope ->
  let r := get_contents self limit only_images only_active sort_on
             sort_direction scope scope_id tags tags_exclusive w in
  exists buster,
    let options := get_contents_options limit only_images only_active sort_on
                     sort_direction scope scope_id tags tags_exclusive buster in
    (if String.eqb sort_on "random"
     then exists b, buster = Some b /\ 1 <= b <= 1000000 /\
                    b = 1 + entropy w (draws w) mod 1000000 /\
                    draws (snd r) = S (draws w)
     else buster = None /\ draws (snd r) = draws w) /\
    options !! "buster" = OInt <$> buster /\
    options !! "sort_on" = Some (OStr sort_on) /\
    options !! "sort_direction" = Some (OStr (Py.upper sort_direction)) /\
    (Py.upper sort_direction = "DESC" \/ Py.upper sort_direction = "ASC") /\
    requests (snd r)
    = (_api_path self +:+ "get_content_list" +:+ "?" +:+
       urlencode (with_formats (_formats self w) options)) :: requests w.
Proof.
  intros Hsort_on Hdirection Hscope r.
  pose proof Hdirection as Hupper.
  apply in_elem_of in Hsort_on, Hdirection. apply bad_scope_false in Hscope.
  unfold sort_on_values in Hsort_on. unfold sort_direction_values in Hdirection.
  assert (r = (let! buster :=
                 (if String.eqb sort_on "random"
                  then let! b := randint 1 1000000 in ret (Some b)
                  else ret None) in
               let! data :=
                 _get self "get_content_list"
                   (Some (get_contents_options limit only_images only_active
                            sort_on sort_direction scope scope_id tags
                            tags_exclusive buster)) in
               getitem data "contents" ret) w) as Hr.
  { subst r. unfold get_contents. by rewrite Hsort_on, Hdirection, Hscope. }
  clearbody r. unfold bind at 1 in Hr.
  assert (forall buster,
            let options := get_contents_options limit only_images only_active
                             sort_on sort_direction scope scope_id tags
                             tags_exclusive buster in
            options !! "buster" = OInt <$> buster /\
            options !! "sort_on" = Some (OStr sort_on) /\
            options !! "sort_direction" = Some (OStr (Py.upper sort_direction)))
    as Hkeys.
  { intros buster. unfold get_contents_options.
    destruct (Py.truthy (wrap (or_empty tags))), buster as [b|],
      (Py.truthy scope && Py.truthy scope_id) eqn:Hboth;
      try (apply both_truthy in Hboth as [(s & -> & _) (i & -> & _)]);
      unfold dict, update; simpl; repeat split; by simplify_map_eq. }
  assert (Py.upper sort_direction = "DESC" \/ Py.upper sort_direction = "ASC")
    as Hcase.
  { unfold sort_direction_values in Hupper.
    apply list_elem_of_In in Hupper. simpl in Hupper.
    destruct Hupper as [<-|[<-|[]]]; [by left | by right]. }
  destruct (String.eqb sort_on "random"); simpl in Hr; subst r;
    rewrite fetch_world.
  - exists (Some (1 + entropy w (draws w) mod 1000000)). split.
    + eexists. split; [done|]. split; [|done].
      pose proof (Z.mod_pos_bound (entropy w (draws w)) 1000000). lia.
    + destruct (Hkeys (Some (1 + entropy w (draws w) mod 1000000)))
        as (Hb & Hs & Hd).
      split; [exact Hb|]. split; [exact Hs|]. split; [exact Hd|].
      split; [exact Hcase|].
      unfold logged, request_url. simpl. by rewrite options_or_empty_some.
  - exists None. split; [done|].
    destruct (Hkeys None) as (Hb & Hs & Hd).
    split; [exact Hb|]. split; [exact Hs|]. split; [exact Hd|].
    split; [exact Hcase|].
    unfold logged, request_url. simpl. by rewrite options_or_empty_some.
Qed.

Lemma random_sort_draws_a_fresh_buster_witness :
  exists buster,
    (exists b, buster = Some b /\ 1 <= b <= 1000000 /\
               b = 1 + 41 mod 1000000 /\
               draws (snd (get_contents (H := reference) hosted_client 5 false
                             true "random" "asc" None None
                             (Absent (A := string)) true
                             (world_replying body_ok))) = 1%nat) /\
    get_contents_options 5 false true "random" "asc" None None
      (Absent (A := string)) true buster !! "buster" = OInt <$> buster.
Proof.
  destruct (random_sort_draws_a_fresh_buster (H := reference) hosted_client 5
              false true "random" "asc" None None (Absent (A := string)) true
              (world_replying body_ok))
    as (buster & Hdraw & Hbuster & _).
  - unfold sort_on_values. apply list_elem_of_In. simpl. tauto.
  - unfold sort_direction_values. apply list_elem_of_In. simpl. tauto.
  - by left.
  - exists buster. split; [exact Hdraw | exact Hbuster].
Defined.

(* ------------------------------------------------------------------ *)
(** ** The registry, operation by operation *)
(* ------------------------------------------------------------------ *)

(** X7: [clear_formats] empties the registry of the instance it is
    called on, and of no other: the registry of the class, and with it
    the registry of every instance that has none of its own, stays as it
    was.  The next request of the instance carries the accessor's
    options and nothing else. *)
Theorem clear_formats_empties_the_callers_registry_only `{Runtime}
    (self : Director) (w : World) :
  let w1 := snd (clear_formats self w) in
  fst (clear_formats self w) = Return tt /\
  _formats self w1 = no_formats /\
  class_formats w1 = class_formats w /\
  (forall other, oid other <> oid self -> _formats other w1 = _formats other w) /\
  requests w1 = requests w /\
  (forall scope options,
     requests (snd (_get self scope options w1))
     = (_api_path self +:+ scope +:+ "?" +:+ urlencode (options_or_empty options))
       :: requests w).
Proof.
  intros w1. subst w1.
  split; [done|]. split; [|split; [done|split; [|split; [done|]]]].
  - unfold _formats. by rewrite clear_formats_own.
  - intros other Hne. unfold clear_formats, bind_formats, _formats. simpl.
    by rewrite lookup_insert_ne.
  - intros scope options. rewrite get_requests. unfold logged, request_url. simpl.
    unfold _formats. simpl. by rewrite lookup_insert_eq.
Qed.

Lemma mutate_formats_keeps_own (a x : Director) (f : formats -> formats) (w : World) :
  has_own x w -> has_own x (snd (mutate_formats a f w)).
Proof.
  unfold has_own, mutate_formats. intros Hx.
  destruct (own_formats w !! oid a) as [own|] eqn:Ha; simpl; [|done].
  destruct (decide (oid a = oid x)) as [Heq|Hne].
  - rewrite Heq, lookup_insert_eq. by eexists.
  - by rewrite lookup_insert_ne.
Qed.

(** X8: once one of two instances has a registry of its own (which is
    what [clear_formats] gives it), nothing that is done through the one
    shows in the registry of the other, and an instance that has a
    registry of its own keeps it through every format operation and
    every request. *)
Theorem own_registry_is_private `{Runtime} (a b : Director) (w : World) :
  oid a <> oid b ->
  has_own a w \/ has_own b w ->
  (forall name width height crop quality sharpening,
     _formats b (snd (add_format a name width height crop quality sharpening w))
     = _formats b w /\
     _formats b (snd (add_user_format a name width height crop quality
                        sharpening w))
     = _formats b w) /\
  (forall width height crop quality sharpening,
     _formats b (snd (set_preview_format a width height crop quality sharpening w))
     = _formats b w) /\
  _formats b (snd (clear_formats a w)) = _formats b w /\
  has_own a (snd (clear_formats a w)) /\
  (forall x,
     has_own x w ->
     (forall name width height crop quality sharpening,
        has_own x (snd (add_format a name width height crop quality sharpening w)) /\
        has_own x (snd (add_user_format a name width height crop quality
                          sharpening w))) /\
     (forall width height crop quality sharpening,
        has_own x (snd (set_preview_format a width height crop quality
                          sharpening w))) /\
     has_own x (snd (clear_formats a w)) /\
     (forall scope options, has_own x (snd (_get a scope options w)))).
Proof.
  intros Hne Hown.
  split; [|split; [|split; [|split]]].
  - intros. split; by apply mutate_formats_private.
  - intros. by apply mutate_formats_private.
  - unfold clear_formats, bind_formats, _formats. simpl.
    by rewrite lookup_insert_ne.
  - unfold has_own. rewrite clear_formats_own. by eexists.
  - intros x Hx. split; [|split; [|split]].
    + intros. split; by apply mutate_formats_keeps_own.
    + intros. by apply mutate_formats_keeps_own.
    + unfold has_own, clear_formats, bind_formats. simpl.
      destruct (decide (oid a = oid x)) as [Heq|Hnx].
      * rewrite Heq, lookup_insert_eq. by eexists.
      * by rewrite lookup_insert_ne.
    + intros. unfold has_own. by rewrite get_requests.
Qed.

Lemma own_registry_is_private_witness :
  let a := MkDirector 0 "http://example.com/api/" in
  let b := MkDirector 1 "http://example.com/api/" in
  let w := snd (clear_formats b (world_replying body_ok)) in
  _formats b (snd (add_format a "thumb" 150 120 true 75 true w)) = no_formats.
Proof.
  intros a b w.
  destruct (own_registry_is_private (H := reference) a b w) as (Hadd & _).
  - done.
  - right. unfold has_own. subst w. rewrite clear_formats_own. by eexists.
  - destruct (Hadd "thumb" 150 120 true 75 true) as [-> _]. by vm_compute.
Defined.

(** X9: the preview is a single slot.  [set_preview_format] puts its
    five values there whatever was there before and leaves the size
    lists alone; every later request of the instance carries them under
    ['preview'] as [width,height,crop,quality,sharpening], the two
    switches as 0 or 1. *)
Theorem preview_is_a_single_slot (self : Director) (width height : Z)
    (crop : bool) (quality : Z) (sharpening : bool) (w : World)
    (options : gmap string optval) :
  let w1 := snd (set_preview_format self width height crop quality sharpening w) in
  preview (_formats self w1)
  = Some (width, height, (if crop then 1 else 0), quality,
          (if sharpening then 1 else 0)) /\
  sizes (_formats self w1) = sizes (_formats self w) /\
  user_sizes (_formats self w1) = user_sizes (_formats self w) /\
  with_formats (_formats self w1) options !! "preview"
  = Some (OStr (Py.str width +:+ "," +:+ Py.str height +:+ "," +:+
                (if crop then "1" else "0") +:+ "," +:+ Py.str quality +:+ "," +:+
                (if sharpening then "1" else "0"))).
Proof.
  intros w1. subst w1. unfold set_preview_format.
  rewrite mutate_formats_self. simpl.
  split; [by destruct crop, sharpening|]. split; [done|]. split; [done|].
  unfold with_formats. simpl. rewrite add_preview_lookup.
  by destruct crop, sharpening.
Qed.

Lemma update_lookup (items : list (string * optval)) (d : gmap string optval)
    (k : string) (v : optval) :
  update d items !! k = Some v -> In k (map fst items) \/ d !! k = Some v.
Proof.
  unfold update. revert d. induction items as [|[k' v'] items IH]; intros d; simpl.
  - by right.
  - intros Hk. apply IH in Hk as [Hin|Hk]; [by left; right|].
    destruct (decide (k' = k)) as [->|Hne].
    + left. by left.
    + right. by rewrite lookup_insert_ne in Hk.
Qed.

Lemma dict_lookup (items : list (string * optval)) (k : string) (v : optval) :
  dict items !! k = Some v -> In k (map fst items).
Proof. intros Hk. by apply update_lookup in Hk as [Hin|Hk]. Qed.

Lemma with_formats_unreserved (d : formats) (options : gmap string optval)
    (k : string) :
  reserved k = false -> with_formats d options !! k = options !! k.
Proof.
  intros Hk. unfold with_formats.
  rewrite add_preview_other by (by intros ->).
  rewrite add_user_sizes_other by (by intros i _ ->).
  by rewrite add_sizes_other by (by intros i _ ->).
Qed.

Lemma accessor_keys_unreserved (k : string) :
  In k accessor_keys -> reserved k = false.
Proof.
  unfold accessor_keys. simpl. intros Hin.
  repeat (destruct Hin as [<-|Hin]; [by vm_compute|]). done.
Qed.

(** The keys of the options that the accessors build. *)
Lemma options_keys {A} `{Py.Truthy A} `{Py.Str A} (k : string) (v : optval) :
  (forall gallery_id limit order with_content,
     get_gallery_options gallery_id limit order with_content !! k = Some v ->
     In k accessor_keys) /\
  (forall only_published only_active list_only only_smart exclude_smart
          (tags : arg A) tags_exclusive,
     get_albums_options only_published only_active list_only only_smart
       exclude_smart tags tags_exclusive !! k = Some v ->
     In k accessor_keys) /\
  (forall album_id exclude,
     get_galleries_by_album_options album_id exclude !! k = Some v ->
     In k accessor_keys) /\
  (forall limit only_images only_active sort_on sort_direction scope scope_id
          (tags : arg A) tags_exclusive buster,
     get_contents_options limit only_images only_active sort_on sort_direction
       scope scope_id tags tags_exclusive buster !! k = Some v ->
     In k accessor_keys) /\
  (forall sort scope scope_id scope_all,
     get_users_options sort scope scope_id scope_all !! k = Some v ->
     In k accessor_keys).
Proof.
  repeat split.
  - intros * Hk. unfold get_gallery_options in Hk.
    repeat (apply update_lookup in Hk as [Hk|Hk];
            [simpl in Hk; unfold accessor_keys; simpl; tauto|]);
    by rewrite lookup_empty in Hk.
  - intros * Hk. unfold get_albums_options in Hk.
    destruct (Py.truthy (wrap (or_empty tags)));
    repeat (apply update_lookup in Hk as [Hk|Hk];
            [simpl in Hk; unfold accessor_keys; simpl; tauto|]);
    by rewrite lookup_empty in Hk.
  - intros * Hk. unfold get_galleries_by_album_options in Hk.
    destruct (Py.truthy (wrap (or_empty exclude)));
    repeat (apply update_lookup in Hk as [Hk|Hk];
            [simpl in Hk; unfold accessor_keys; simpl; tauto|]);
    by rewrite lookup_empty in Hk.
  - intros * Hk. unfold get_contents_options in Hk.
    destruct (Py.truthy (wrap (or_empty tags))),
      (Py.truthy scope && Py.truthy scope_id), scope as [s|], scope_id as [i|],
      buster as [b|];
    repeat (apply update_lookup in Hk as [Hk|Hk];
            [simpl in Hk; unfold accessor_keys; simpl; tauto|]);
    by rewrite lookup_empty in Hk.
  - intros * Hk. unfold get_users_options in Hk.
    destruct (Py.truthy scope && Py.truthy scope_id), scope as [s|],
      scope_id as [i|];
    repeat (apply update_lookup in Hk as [Hk|Hk];
            [simpl in Hk; unfold accessor_keys; simpl; tauto|]);
    by rewrite lookup_empty in Hk.
Qed.

(** X10: the registry never overwrites an argument.  No key that an
    accessor writes into its options is one of the keys of the registry
    ([size[...]], [user_size[...]], [preview]), so every option the
    accessor built is in the request with the value the accessor gave
    it, whatever formats are registered. *)
Theorem registry_never_overwrites_an_argument {A} `{Py.Truthy A} `{Py.Str A}
    (d : formats) (k : string) (v : optval) :
  (forall gallery_id limit order with_content,
     get_gallery_options gallery_id limit order with_content !! k = Some v ->
     with_formats d (get_gallery_options gallery_id limit order with_content) !! k
     = Some v) /\
  (forall only_published only_active list_only only_smart exclude_smart
          (tags : arg A) tags_exclusive,
     get_albums_options only_published only_active list_only only_smart
       exclude_smart tags tags_exclusive !! k = Some v ->
     with_formats d (get_albums_options only_published only_active list_only
                       only_smart exclude_smart tags tags_exclusive) !! k
     = Some v) /\
  (forall album_id exclude,
     get_galleries_by_album_options album_id exclude !! k = Some v ->
     with_formats d (get_galleries_by_album_options album_id exclude) !! k
     = Some v) /\
  (forall limit only_images only_active sort_on sort_direction scope scope_id
          (tags : arg A) tags_exclusive buster,
     get_contents_options limit only_images only_active sort_on sort_direction
       scope scope_id tags tags_exclusive buster !! k = Some v ->
     with_formats d (get_contents_options limit only_images only_active sort_on
                       sort_direction scope scope_id tags tags_exclusive buster)
       !! k = Some v) /\
  (forall sort scope scope_id scope_all,
     get_users_options sort scope scope_id scope_all !! k = Some v ->
     with_formats d (get_users_options sort scope scope_id scope_all) !! k
     = Some v) /\
  (forall album_id (only_active : bool),
     let options := dict [("album_id", OInt album_id);
                          ("only_active", OInt (Py.int_bool only_active))] in
     options !! k = Some v -> with_formats d options !! k = Some v) /\
  (forall content_id,
     let options := dict [("content_id", OInt content_id)] in
     options !! k = Some v -> with_formats d options !! k = Some v) /\
  (forall i, reserved ("size[" +:+ Py.str (S i) +:+ "]") = true /\
             reserved ("user_size[" +:+ Py.str (S i) +:+ "]") = true) /\
  reserved "preview" = true /\
  Forall (fun key => reserved key = false) accessor_keys.
Proof.
  destruct (options_keys (A := A) k v)
    as (Hgallery & Halbums & Hgalleries & Hcontents & Husers).
  split; [|split; [|split; [|split; [|split; [|split; [|split; [|split; [|split]]]]]]]];
    cycle 5.
  { intros album_id only_active options Hk. rewrite with_formats_unreserved; [done|].
    apply accessor_keys_unreserved. apply dict_lookup in Hk. simpl in Hk.
    unfold accessor_keys. simpl. tauto. }
  { intros content_id options Hk. rewrite with_formats_unreserved; [done|].
    apply accessor_keys_unreserved. apply dict_lookup in Hk. simpl in Hk.
    unfold accessor_keys. simpl. tauto. }
  all: cycle -5.
  - intros * Hk. rewrite with_formats_unreserved; [done|].
    by eapply accessor_keys_unreserved, Hgallery.
  - intros * Hk. rewrite with_formats_unreserved; [done|].
    by eapply accessor_keys_unreserved, Halbums.
  - intros * Hk. rewrite with_formats_unreserved; [done|].
    by eapply accessor_keys_unreserved, Hgalleries.
  - intros * Hk. rewrite with_formats_unreserved; [done|].
    by eapply accessor_keys_unreserved, Hcontents.
  - intros * Hk. rewrite with_formats_unreserved; [done|].
    by eapply accessor_keys_unreserved, Husers.
  - intros i. by split.
  - done.
  - apply List.Forall_forall. intros key Hin. by apply accessor_keys_unreserved.
Qed.

(** X11: the six assertions of [test_format_methods] hold for every
    client in every world, whatever was registered before and whatever
    other clients share the registry of the class: after the first
    [clear_formats] and the three registrations there is one size
    format, one user size format and a preview; after the second
    [clear_formats] there is none.  The same holds for any three
    registrations: after [clear_formats] the registry is exactly what
    was registered since, and the registry of the class is not
    touched. *)
Theorem test_format_methods_passes (director : Director) (w : World)
    (name user_name : string) (width height user_width user_height : Z)
    (crop user_crop preview_crop : bool) (quality user_quality : Z)
    (sharpening user_sharpening preview_sharpening : bool)
    (preview_width preview_height preview_quality : Z) :
  fst (test_format_methods director w)
  = Return ((1%nat, 1%nat, Some (132322, 123223, 1, 75, 1)),
            (0%nat, 0%nat, None)) /\
  class_formats (snd (test_format_methods director w)) = class_formats w /\
  _formats director (snd (test_format_methods director w)) = no_formats /\
  let program :=
    let! _ := clear_formats director in
    let! _ := add_format director name width height crop quality sharpening in
    let! _ := add_user_format director user_name user_width user_height
                user_crop user_quality user_sharpening in
    let! _ := set_preview_format director preview_width preview_height
                preview_crop preview_quality preview_sharpening in
    read_formats director in
  fst (program w)
  = Return (Formats [(name, width, height, (if crop then 1 else 0), quality,
                      (if sharpening then 1 else 0))]
                    [(user_name, user_width, user_height,
                      (if user_crop then 1 else 0), user_quality,
                      (if user_sharpening then 1 else 0))]
                    (Some (preview_width, preview_height,
                           (if preview_crop then 1 else 0), preview_quality,
                           (if preview_sharpening then 1 else 0)))) /\
  class_formats (snd (program w)) = class_formats w.
Proof.
  unfold test_format_methods, bind, clear_formats, bind_formats, add_format,
    add_user_format, set_preview_format, mutate_formats, read_formats, ret,
    _formats.
  simpl. repeat (rewrite lookup_insert_eq; simpl).
  by destruct crop, sharpening, user_crop, user_sharpening, preview_crop,
    preview_sharpening.
Qed.

(* ------------------------------------------------------------------ *)
(** ** Construction, once more *)
(* ------------------------------------------------------------------ *)

(** X12: the token of the key is checked for dashes and then dropped:
    two acceptable keys with the same service build the same client from
    the same path, so no request ever depends on the token. *)
Theorem token_is_never_used (key1 key2 api_path : string) (w : World) :
  valid_key key1 ->
  valid_key key2 ->
  service_of key1 = service_of key2 ->
  __init__ key1 api_path w = __init__ key2 api_path w.
Proof.
  intros (s1 & t1 & Hsplit1 & Hs1)%valid_key_split
         (s2 & t2 & Hsplit2 & Hs2)%valid_key_split Hservice.
  unfold service_of in Hservice.
  rewrite (before_split _ _ _ _ Hsplit1), (before_split _ _ _ _ Hsplit2) in Hservice.
  subst s2. unfold __init__. by rewrite Hsplit1, Hsplit2.
Qed.

Lemma token_is_never_used_witness :
  __init__ "local-abc" "example.com" (world_replying body_ok)
  = __init__ "local-" "example.com" (world_replying body_ok).
Proof.
  apply token_is_never_used.
  - exists "local", "abc". by vm_compute; auto.
  - exists "local", "". by vm_compute; auto.
  - by vm_compute.
Defined.

Lemma lstrip_first (p : ascii -> bool) (s : string) (c : ascii) :
  first_char s = Some c -> p c = false -> Py.lstrip p s = s.
Proof. destruct s as [|d s]; [done|]. simpl. intros [= ->] Hc. by rewrite Hc. Qed.

Lemma rstrip_last (p : ascii -> bool) (s : string) (c : ascii) :
  last_char s = Some c -> p c = false -> Py.rstrip p s = s.
Proof.
  intros Hlast Hc. induction s as [|d s IH]; [done|].
  destruct s as [|e s].
  - simpl in *. injection Hlast as ->. by rewrite Hc.
  - change (last_char (String d (String e s))) with (last_char (String e s)) in Hlast.
    cbn [Py.rstrip]. cbn [Py.rstrip] in IH. rewrite (IH Hlast). done.
Qed.

Lemma replace_absent (old new s : string) :
  occurs old s = false -> Py.replace old new s = s.
Proof.
  unfold Py.replace. induction s as [|c s IH]; [done|].
  intros Habsent. cbn [occurs] in Habsent.
  apply orb_false_iff in Habsent as [Hhead Htail].
  cbn [Py.replace_from]. rewrite Hhead. by rewrite IH.
Qed.

Lemma bare_host_fixed (h : string) :
  bare_host h ->
  h <> "" /\ Py.strip h = h /\ Py.rstrip slash h = h /\
  Py.replace "http://" "" h = h.
Proof.
  intros ((c & Hfirst & Hc) & (d & Hlast & Hd & Hslash) & Habsent).
  split; [by destruct h|]. split; [|split].
  - unfold Py.strip. rewrite (lstrip_first _ _ c) by done.
    by apply (rstrip_last _ _ d).
  - by apply (rstrip_last _ _ d).
  - by apply replace_absent.
Qed.

(** X13: the scheme and the trailing slash of the path are optional: for
    a bare host, the paths [http://host/], [http://host], [host/] and
    [host] build the same client. *)
Theorem scheme_and_trailing_slash_are_optional (api_key h : string) (w : World) :
  bare_host h ->
  __init__ api_key ("http://" +:+ h +:+ "/") w = __init__ api_key h w /\
  __init__ api_key ("http://" +:+ h) w = __init__ api_key h w /\
  __init__ api_key (h +:+ "/") w = __init__ api_key h w.
Proof.
  intros Hbare.
  pose proof Hbare as ((c & Hfirst & Hc) & (d & Hlast & Hd & Hslash) & Habsent).
  destruct (bare_host_fixed h Hbare) as (Hne & Hstrip & Hrstrip & Hreplace).
  destruct (host_of_strips_scheme_and_slash h Hne Hstrip Hrstrip Hreplace)
    as [Hboth Hbare_host].
  assert (Py.rstrip Py.isspace h = h) as Hblank by by apply (rstrip_last _ _ d).
  assert (host_of ("http://" +:+ h) = h) as Hscheme.
  { unfold host_of, Py.strip.
    change (Py.lstrip Py.isspace ("http://" +:+ h)) with ("http://" +:+ h).
    rewrite rstrip_prefix by (by rewrite Hblank). rewrite Hblank.
    rewrite rstrip_prefix by (by rewrite Hrstrip). rewrite Hrstrip.
    exact Hreplace. }
  assert (host_of (h +:+ "/") = h) as Hslashed.
  { unfold host_of, Py.strip.
    assert (Py.lstrip Py.isspace (h +:+ "/") = h +:+ "/") as ->.
    { apply (lstrip_first _ _ c); [|done]. by destruct h. }
    rewrite rstrip_snoc_keep by done.
    rewrite rstrip_snoc_drop by done.
    by rewrite Hrstrip. }
  unfold __init__.
  change (Py.replace "http://" "" (Py.rstrip slash (Py.strip ("http://" +:+ h +:+ "/"))))
    with (host_of ("http://" +:+ h +:+ "/")).
  change (Py.replace "http://" "" (Py.rstrip slash (Py.strip ("http://" +:+ h))))
    with (host_of ("http://" +:+ h)).
  change (Py.replace "http://" "" (Py.rstrip slash (Py.strip (h +:+ "/"))))
    with (host_of (h +:+ "/")).
  change (Py.replace "http://" "" (Py.rstrip slash (Py.strip h)))
    with (host_of h).
  by rewrite Hboth, Hscheme, Hslashed, Hbare_host.
Qed.

Lemma scheme_and_trailing_slash_are_optional_witness :
  __init__ "hosted-abc" "http://example.com/" (world_replying body_ok)
  = __init__ "hosted-abc" "example.com" (world_replying body_ok).
Proof.
  apply (scheme_and_trailing_slash_are_optional "hosted-abc" "example.com").
  split; [|split].
  - exists "e"%char. by vm_compute.
  - exists "m"%char. by vm_compute.
  - by vm_compute.
Defined.

Lemma rstrip_idempotent (p : ascii -> bool) (s : string) :
  Py.rstrip p (Py.rstrip p s) = Py.rstrip p s.
Proof.
  induction s as [|c s IH]; [done|]. cbn [Py.rstrip].
  destruct (Py.rstrip p s) as [|d r] eqn:Hr.
  - destruct (p c) eqn:Hc; [done|]. simpl. by rewrite Hc.
  - cbn [Py.rstrip]. cbn [Py.rstrip] in IH. by rewrite IH.
Qed.

Lemma lstrip_rstrip (p : ascii -> bool) (s : string) :
  Py.lstrip p (Py.rstrip p (Py.lstrip p s)) = Py.rstrip p (Py.lstrip p s).
Proof.
  induction s as [|c s IH]; [done|]. cbn [Py.lstrip].
  destruct (p c) eqn:Hc; [exact IH|].
  cbn [Py.rstrip]. destruct (Py.rstrip p s); rewrite ?Hc; simpl; by rewrite Hc.
Qed.

Lemma strip_idempotent (s : string) : Py.strip (Py.strip s) = Py.strip s.
Proof. unfold Py.strip. by rewrite lstrip_rstrip, rstrip_idempotent. Qed.

(** X14: blanks around the key and around the path do not matter: the
    constructor does with the two texts what it does with the texts
    stripped of them. *)
Theorem blanks_around_key_and_path_are_ignored (api_key api_path : string)
    (w : World) :
  __init__ api_key api_path w = __init__ (Py.strip api_key) (Py.strip api_path) w /\
  (forall blank, Py.isspace blank = true ->
     __init__ (String blank api_key) api_path w = __init__ api_key api_path w /\
     __init__ (api_key +:+ String blank "") api_path w = __init__ api_key api_path w /\
     __init__ api_key (String blank api_path) w = __init__ api_key api_path w /\
     __init__ api_key (api_path +:+ String blank "") w = __init__ api_key api_path w).
Proof.
  split.
  - unfold __init__. by rewrite !strip_idempotent.
  - intros blank Hblank.
    assert (forall s, Py.strip (String blank s) = Py.strip s) as Hleft.
    { intros s. unfold Py.strip. simpl. by rewrite Hblank. }
    assert (forall s, Py.strip (s +:+ String blank "") = Py.strip s) as Hright.
    { intros s. unfold Py.strip. induction s as [|c s IH].
      - simpl. by rewrite Hblank.
      - simpl. destruct (Py.isspace c) eqn:Hc; [exact IH|].
        change (String c (s +:+ String blank ""))
          with (String c s +:+ String blank "").
        by rewrite rstrip_snoc_drop. }
    unfold __init__. by rewrite !Hleft, !Hright.
Qed.

(* ------------------------------------------------------------------ *)
(** ** Errors of the service, seen from the accessors *)
(* ------------------------------------------------------------------ *)

Lemma every_call_raises `{Runtime} {A} `{Py.Truthy A} `{Py.Str A}
    (self : Director) (w : World) (e : exn) :
  (forall scope options w',
     service w' = service w -> fst (_get self scope options w') = Raise e) ->
  every_call self w (fun r => r = Raise e).
Proof.
  intros Hget.
  assert (forall scope options key w',
            service w' = service w ->
            fst ((let! data := _get self scope options in getitem data key ret) w')
            = Raise e) as Hfetch.
  { intros scope options key w' Hservice. unfold bind.
    specialize (Hget scope options w' Hservice).
    destruct (_get self scope options w') as [[data|e'] w'']; simpl in *; [done|].
    done. }
  unfold every_call. repeat split.
  - by apply Hfetch.
  - by apply Hget.
  - by apply Hget.
  - by apply Hfetch.
  - intros gallery_id limit order with_content Horder. unfold get_gallery.
    apply in_elem_of in Horder. unfold order_values in Horder. rewrite Horder.
    by apply Hget.
  - intros. by apply Hfetch.
  - intros. by apply Hget.
  - intros. by apply Hfetch.
  - intros limit only_images only_active sort_on sort_direction scope scope_id
           tags tags_exclusive Hsort_on Hdirection Hscope. unfold get_contents.
    apply in_elem_of in Hsort_on, Hdirection. apply bad_scope_false in Hscope.
    unfold sort_on_values in Hsort_on. unfold sort_direction_values in Hdirection.
    rewrite Hsort_on, Hdirection, Hscope. cbn [negb].
    unfold bind at 1. destruct (String.eqb sort_on "random"); simpl;
      by apply Hfetch.
  - intros. by apply Hget.
  - intros sort scope scope_id scope_all Hsort Hscope. unfold get_users.
    apply in_elem_of in Hsort. apply bad_scope_false in Hscope.
    unfold sort_values in Hsort. rewrite Hsort, Hscope. cbn [negb].
    by apply Hfetch.
Qed.

(** X15: what the service reports reaches the caller of every accessor
    unchanged: an envelope whose ['stat'] is not "ok" makes each of them
    raise the service error with the ['error'] member, a body that does
    not decode makes each of them raise the malformed-payload error with
    the decoder's message; none of them returns a value then. *)
Theorem service_errors_end_every_call `{Runtime} {A} `{Py.Truthy A} `{Py.Str A}
    (self : Director) (w : World) (body : string) :
  (forall url, service w url = Response 200 body) ->
  (forall members stat error,
     json_loads (without_stray body) = inr (JObj members) ->
     last_member "stat" members = Some stat ->
     stat <> JStr "ok" ->
     last_member "error" members = Some error ->
     every_call (A := A) self w (fun r => r = Raise (DirectorError error))) /\
  (forall detail,
     json_loads (without_stray body) = inl detail ->
     every_call (A := A) self w
       (fun r => r = Raise (DirectorApiError
                              ("Received malformed JSON: " +:+ detail)))).
Proof.
  intros Hreply. split.
  - intros members stat error Hjson Hstat Hne Herror.
    apply every_call_raises. intros scope options w' Hservice.
    rewrite get_run. simpl. rewrite Hservice, Hreply. simpl.
    unfold decode. rewrite sub_without_stray, Hjson.
    unfold unwrap, getitem. rewrite Hstat.
    destruct (ne_str stat "ok") eqn:Hok; [by rewrite Herror|].
    by apply ne_str_ok in Hok.
  - intros detail Hjson.
    apply every_call_raises. intros scope options w' Hservice.
    rewrite get_run. simpl. rewrite Hservice, Hreply. simpl.
    unfold decode. by rewrite sub_without_stray, Hjson.
Qed.

Lemma service_errors_end_every_call_witness :
  fst (@get_albums reference string _ _ hosted_client true true false false false
         (Many ["vacation"]) true (world_replying body_fail))
  = Raise (DirectorError (JStr "Gallery not found")) /\
  fst (@get_totals reference hosted_client (world_replying "<html>"))
  = Raise (DirectorApiError
             "Received malformed JSON: No JSON object could be decoded").
Proof.
  split.
  - destruct (@service_errors_end_every_call reference string _ _ hosted_client
                (world_replying body_fail) body_fail (fun _ => eq_refl))
      as [Hfail _].
    assert (Ref.json_loads (without_stray body_fail)
            = inr (JObj [("stat", JStr "fail");
                         ("error", JStr "Gallery not found")])) as Hjson
      by (by vm_compute).
    destruct (Hfail _ (JStr "fail") (JStr "Gallery not found") Hjson eq_refl)
      as (_ & _ & _ & _ & _ & Halbums & _); [done | done |].
    apply Halbums.
  - destruct (@service_errors_end_every_call reference string _ _ hosted_client
                (world_replying "<html>") "<html>" (fun _ => eq_refl))
      as [_ Hbad].
    assert (Ref.json_loads (without_stray "<html>")
            = inl "No JSON object could be decoded") as Hjson by (by vm_compute).
    destruct (Hbad _ Hjson) as (_ & _ & Htotals & _).
    exact Htotals.
Defined.
